(** * figma-to-code: a shallow embedding of the converter component

    The repository is one React component, [App], in two revisions:
    the current one with image paste and preview, and the first one in
    src/App.tsx.  The development embeds

    - the JavaScript values the component handles (UTF-16 strings,
      parsed JSON, thrown values),
    - the regular expression of the code extraction and the backtracking
      matcher that runs it,
    - the event handlers as functions on the component's state and on the
      browser resources they touch,
    - [convertFigmaToJSX] in a small state-and-exception monad whose log
      records every effect, the network request among them.
*)

From Stdlib Require Import String Ascii NArith QArith Arith Bool Lia DecimalString List.
Import ListNotations.
Close Scope Q_scope.

Set Implicit Arguments.
Set Warnings "-register-all".

(* ================================================================== *)
(** * JavaScript strings *)
(* ================================================================== *)

Module JS.

(** A string is its sequence of UTF-16 code units. *)
Definition jsstring := list N.

Definition js (s : string) : jsstring :=
  map (fun a => N_of_ascii a) (list_ascii_of_string s).

Fixpoint eqb (a b : jsstring) : bool :=
  match a, b with
  | [], [] => true
  | x :: a', y :: b' => N.eqb x y && eqb a' b'
  | _, _ => false
  end.

(** [WhiteSpace] and [LineTerminator] of ECMAScript: what [\s] matches in
    a regular expression without the [u] flag and what [trim] strips. *)
Definition isWhiteSpace (c : N) : bool :=
  ((9 <=? c) && (c <=? 13) || (c =? 32) || (c =? 160) || (c =? 5760)
   || (8192 <=? c) && (c <=? 8202) || (c =? 8232) || (c =? 8233)
   || (c =? 8239) || (c =? 8287) || (c =? 12288) || (c =? 65279))%N.

Fixpoint trimStart (s : jsstring) : jsstring :=
  match s with
  | c :: s' => if isWhiteSpace c then trimStart s' else s
  | [] => []
  end.

Definition trimEnd (s : jsstring) : jsstring := rev (trimStart (rev s)).

(** [String.prototype.trim] *)
Definition trim (s : jsstring) : jsstring := trimEnd (trimStart s).

(** [s.startsWith(p)], and the rest of [s] behind [p]. *)
Fixpoint stripPrefix (p s : jsstring) : option jsstring :=
  match p, s with
  | [], _ => Some s
  | a :: p', b :: s' => if N.eqb a b then stripPrefix p' s' else None
  | _ :: _, [] => None
  end.

(** [s.indexOf(p)]: the first index at which [p] occurs, [None] for -1. *)
Fixpoint indexOf (p s : jsstring) : option nat :=
  match stripPrefix p s with
  | Some _ => Some 0
  | None =>
      match s with
      | [] => None
      | _ :: s' => option_map S (indexOf p s')
      end
  end.

(* ------------------------------------------------------------------ *)
(** ** Regular expressions

    The fragment the component uses: literals, classes, sequence,
    alternation, a greedy option, greedy and lazy stars over a class, and
    one capture group.  [matcher] is the backtracking matcher of the
    language definition in continuation style: it tries the alternatives in
    priority order and hands the rest of the input to the continuation; a
    continuation that fails makes it try the next alternative. *)

Inductive regex :=
| Empty
| Char (c : N)
| Class (p : N -> bool)
| Seq (r1 r2 : regex)
| Alt (r1 r2 : regex)
| Opt (r : regex)
| Star (greedy : bool) (p : N -> bool)
| Group (r : regex).

Section Matcher.
Variable R : Type.

(** the continuation gets the rest of the input and capture 1 *)
Definition cont := jsstring -> option jsstring -> option R.

Fixpoint starGreedy (p : N -> bool) (k : jsstring -> option R) (x : jsstring) : option R :=
  match x with
  | c :: x' =>
      if p c then
        match starGreedy p k x' with
        | Some r => Some r
        | None => k x
        end
      else k x
  | [] => k x
  end.

Fixpoint starLazy (p : N -> bool) (k : jsstring -> option R) (x : jsstring) : option R :=
  match k x with
  | Some r => Some r
  | None =>
      match x with
      | c :: x' => if p c then starLazy p k x' else None
      | [] => None
      end
  end.

Fixpoint matcher (r : regex) (x : jsstring) (cap : option jsstring) (k : cont) : option R :=
  match r with
  | Empty => k x cap
  | Char c =>
      match x with
      | d :: x' => if N.eqb c d then k x' cap else None
      | [] => None
      end
  | Class p =>
      match x with
      | d :: x' => if p d then k x' cap else None
      | [] => None
      end
  | Seq r1 r2 => matcher r1 x cap (fun y cap' => matcher r2 y cap' k)
  | Alt r1 r2 =>
      match matcher r1 x cap k with
      | Some res => Some res
      | None => matcher r2 x cap k
      end
  | Opt r1 =>
      match matcher r1 x cap k with
      | Some res => Some res
      | None => k x cap
      end
  | Star true p => starGreedy p (fun y => k y cap) x
  | Star false p => starLazy p (fun y => k y cap) x
  | Group r1 =>
      matcher r1 x cap
        (fun y _ => k y (Some (firstn (length x - length y) x)))
  end.
End Matcher.

(** The result of [exec]: where the match starts, the matched text and
    capture 1 ([None] is [undefined]). *)
Record match_result := mkMatch {
  index : nat;
  matched : jsstring;
  group1 : option jsstring
}.

Definition matchAt (r : regex) (i : nat) (x : jsstring) : option match_result :=
  matcher r x None
    (fun y cap => Some (mkMatch i (firstn (length x - length y) x) cap)).

(** [RegExp.prototype.exec] without the [g] flag: the first start index
    at which the pattern matches, the end of the input included. *)
Fixpoint execFrom (r : regex) (i : nat) (x : jsstring) : option match_result :=
  match matchAt r i x with
  | Some m => Some m
  | None =>
      match x with
      | [] => None
      | _ :: x' => execFrom r (S i) x'
      end
  end.

(** [s.match(r)] for a pattern without the [g] flag. *)
Definition match_ (s : jsstring) (r : regex) : option match_result := execFrom r 0 s.

Fixpoint lit (s : jsstring) : regex :=
  match s with
  | [] => Empty
  | c :: s' => Seq (Char c) (lit s')
  end.

(* ------------------------------------------------------------------ *)
(** ** Values, truthiness and property access *)

(** What [JSON.parse] produces.  A number is its rational value. *)
Inductive json :=
| JNull
| JBool (b : bool)
| JNum (q : Q)
| JStr (s : jsstring)
| JArr (elems : list json)
| JObj (fields : list (jsstring * json)).

(** A value read from parsed JSON: [None] is [undefined]. *)
Definition value := option json.

(** [ToBoolean] *)
Definition truthy (v : value) : bool :=
  match v with
  | None | Some JNull => false
  | Some (JBool b) => b
  | Some (JNum q) => negb (Z.eqb (Qnum q) 0)
  | Some (JStr s) => match s with [] => false | _ :: _ => true end
  | Some (JArr _) | Some (JObj _) => true
  end.

(** The property names the component reads.  None of them is inherited
    from a prototype, so a value that is not an object with such an own
    property answers [undefined]. *)
Inductive prop := choices | message | content | error | idx0.

Definition propName (p : prop) : jsstring :=
  match p with
  | choices => js "choices"
  | message => js "message"
  | content => js "content"
  | error => js "error"
  | idx0 => js "0"
  end.

Fixpoint lookup (k : jsstring) (fields : list (jsstring * json)) : value :=
  match fields with
  | [] => None
  | (k', v) :: rest => if eqb k k' then Some v else lookup k rest
  end.

Inductive type_error :=
| CannotRead (base : value) (name : jsstring)  (* property of undefined or null *)
| NotAFunction (name : jsstring).        (* calling what is undefined *)

(** What a [throw] or a rejected promise carries, as far as the [catch]
    blocks tell them apart: an [Error] with its message, a [TypeError]
    raised by the language itself, or something that is not an [Error]. *)
Inductive thrown :=
| ErrorObj (msg : jsstring)
| TypeErrorObj (t : type_error)
| NotAnError.

Inductive result (A : Type) :=
| Ok (a : A)
| Throw (e : thrown).
Arguments Ok {A} a.
Arguments Throw {A} e.

(** [v.p] and [v[0]] *)
Definition get (v : value) (p : prop) : result value :=
  match v with
  | None | Some JNull => Throw (TypeErrorObj (CannotRead v (propName p)))
  | Some (JObj fields) => Ok (lookup (propName p) fields)
  | Some (JArr elems) =>
      match p with
      | idx0 => Ok (nth_error elems 0)
      | _ => Ok None
      end
  | Some (JStr s) =>
      match p, s with
      | idx0, c :: _ => Ok (Some (JStr [c]))
      | _, _ => Ok None
      end
  | Some (JBool _) | Some (JNum _) => Ok None
  end.

Definition andThen {A B} (r : result A) (k : A -> result B) : result B :=
  match r with
  | Ok a => k a
  | Throw e => Throw e
  end.

(** [v?.p] *)
Definition getOpt (v : value) (p : prop) : result value :=
  match v with
  | None | Some JNull => Ok None
  | _ => get v p
  end.

Section ToString.
(** [Number::toString] is the engine's. *)
Variable numberToString : Q -> jsstring.

Fixpoint joinWith (sep : jsstring) (l : list jsstring) : jsstring :=
  match l with
  | [] => []
  | [a] => a
  | a :: rest => a ++ sep ++ joinWith sep rest
  end.

(** [ToString] of a parsed value: an array joins its elements with a
    comma, [null] elements as the empty string. *)
Fixpoint toString (v : json) : jsstring :=
  match v with
  | JNull => js "null"
  | JBool true => js "true"
  | JBool false => js "false"
  | JNum q => numberToString q
  | JStr s => s
  | JArr elems =>
      joinWith (js ",")
        (map (fun e => match e with JNull => [] | _ => toString e end) elems)
  | JObj _ => js "[object Object]"
  end.
End ToString.

End JS.

(* ================================================================== *)
(** * The browser: files, object URLs, the network *)
(* ================================================================== *)

Module Browser.
Import JS.

(** A [File]: its name, its media type and its bytes. *)
Record File := mkFile {
  fileName : jsstring;
  fileType : jsstring;
  fileBytes : list Byte.byte
}.

(** The base64 alphabet of RFC 4648. *)
Definition base64Digit (n : N) : N :=
  (if n <? 26 then 65 + n
   else if n <? 52 then 97 + (n - 26)
   else if n <? 62 then 48 + (n - 52)
   else if n =? 62 then 43 else 47)%N.

Fixpoint base64 (bs : list Byte.byte) : jsstring :=
  match bs with
  | [] => []
  | [a] =>
      let n := (Byte.to_N a * 65536)%N in
      [base64Digit (n / 262144); base64Digit ((n / 4096) mod 64); 61; 61]%N
  | [a; b] =>
      let n := (Byte.to_N a * 65536 + Byte.to_N b * 256)%N in
      [base64Digit (n / 262144); base64Digit ((n / 4096) mod 64);
       base64Digit ((n / 64) mod 64); 61]%N
  | a :: b :: c :: rest =>
      let n := (Byte.to_N a * 65536 + Byte.to_N b * 256 + Byte.to_N c)%N in
      [base64Digit (n / 262144); base64Digit ((n / 4096) mod 64);
       base64Digit ((n / 64) mod 64); base64Digit (n mod 64)]%N
      ++ base64 rest
  end.

(** The data URL of a file: what [FileReader.readAsDataURL] leaves in
    [reader.result] when the read succeeds.  A file without a media type
    is given [application/octet-stream]. *)
Definition dataURL (f : File) : jsstring :=
  js "data:"
  ++ match fileType f with
     | [] => js "application/octet-stream"
     | _ :: _ => fileType f
     end
  ++ js ";base64," ++ base64 (fileBytes f).

(** [reader.result]: [string | ArrayBuffer | null] *)
Inductive reader_result :=
| RString (s : jsstring)
| RArrayBuffer
| RNull.

(** How a [FileReader] answers [readAsDataURL]: the [load] event with
    [reader.result], or the [error] event. *)
Inductive reader_event :=
| onload (result : reader_result)
| onerror.

(** An entry of [clipboardData.items]. *)
Record DataTransferItem := mkItem {
  itemType : jsstring;
  getAsFile : option File
}.

(** The body the component serialises with [JSON.stringify]. *)
Inductive content_part :=
| TextPart (text : jsstring)
| ImageUrlPart (url : jsstring) (detail : jsstring).

Inductive message_content :=
| ContentString (s : jsstring)
| ContentParts (parts : list content_part).

Record chat_message := mkMessage {
  role : jsstring;
  msgContent : message_content
}.

Record completion_body := mkBody {
  model : jsstring;
  messages : list chat_message;
  max_tokens : N;
  temperature : Q
}.

Record request_init := mkInit {
  method : jsstring;
  headers : list (jsstring * jsstring);
  body : completion_body
}.

(** A promise, by how it settles; [Pending] never does. *)
Inductive promise (A : Type) :=
| Fulfilled (a : A)
| Rejected (e : thrown)
| Pending.
Arguments Fulfilled {A} a.
Arguments Rejected {A} e.
Arguments Pending {A}.

(** A [Response]: its status and the promise [response.json()] returns,
    which is fulfilled with the parsed body, rejected when the body does
    not parse, or never settled when the body does not arrive. *)
Record response := mkResponse {
  status : N;
  json_ : promise json
}.

(** [response.ok] *)
Definition ok (r : response) : bool := ((200 <=? status r) && (status r <=? 299))%N.

(** What the component does not decide: the build-time key, the file
    reader, the network and the texts the engine gives its own errors and
    numbers. *)
Record env := mkEnv {
  API_KEY : option jsstring;
  readAsDataURL : File -> reader_event;
  fetch : jsstring -> request_init -> promise response;
  typeErrorMessage : type_error -> jsstring;
  numberToString : Q -> jsstring
}.

(** Everything the component does to the outside, in the order it does it. *)
Inductive effect :=
| EReadAsDataURL (f : File)
| EFetch (url : jsstring) (init : request_init)
| EConsoleLog (label : jsstring) (v : json)
| EConsoleError (label : jsstring) (e : thrown).

Definition isFetch (e : effect) : bool :=
  match e with EFetch _ _ => true | _ => false end.

(** The requests a log holds. *)
Definition requests (l : list effect) : list (jsstring * request_init) :=
  flat_map (fun e => match e with EFetch u i => [(u, i)] | _ => [] end) l.

(** The registry of object URLs that [URL.createObjectURL] fills: an
    entry stays until [URL.revokeObjectURL] removes it.  A fresh URL is
    [blob:] and a serial number. *)
Definition url_store := list (jsstring * File).

Definition freshURL (store : url_store) : jsstring :=
  js "blob:" ++ js (NilEmpty.string_of_uint (Nat.to_uint (length store))).

Definition createObjectURL (f : File) (store : url_store) : jsstring * url_store :=
  (freshURL store, store ++ [(freshURL store, f)]).

Definition live (u : jsstring) (store : url_store) : bool :=
  existsb (fun e => eqb u (fst e)) store.

End Browser.

(* ================================================================== *)
(** * Asynchronous code as a state-and-exception monad *)
(* ================================================================== *)

Module Async.
Import JS Browser.

Inductive outcome (A : Type) :=
| Done (a : A)
| Raised (e : thrown)
| Suspended.            (* waits for a promise that never settles *)
Arguments Done {A} a.
Arguments Raised {A} e.
Arguments Suspended {A}.

Section Monad.
Variable St : Type.

(** The component state as the setters leave it, and the effects so far. *)
Record proc := mkProc {
  ui : St;
  effects : list effect
}.

Definition M (A : Type) := proc -> outcome A * proc.

Definition ret {A} (a : A) : M A := fun w => (Done a, w).

Definition bind {A B} (m : M A) (k : A -> M B) : M B :=
  fun w =>
    match m w with
    | (Done a, w') => k a w'
    | (Raised e, w') => (Raised e, w')
    | (Suspended, w') => (Suspended, w')
    end.

Definition throw {A} (e : thrown) : M A := fun w => (Raised e, w).

(** [try { m } catch (error) { h error }] *)
Definition tryCatch {A} (m : M A) (h : thrown -> M A) : M A :=
  fun w =>
    match m w with
    | (Raised e, w') => h e w'
    | r => r
    end.

Definition await {A} (p : promise A) : M A :=
  fun w =>
    match p with
    | Fulfilled a => (Done a, w)
    | Rejected e => (Raised e, w)
    | Pending => (Suspended, w)
    end.

Definition liftResult {A} (r : result A) : M A :=
  match r with
  | Ok a => ret a
  | Throw e => throw e
  end.

Definition perform (e : effect) : M unit :=
  fun w => (Done tt, mkProc (ui w) (effects w ++ [e])).

Definition modify (f : St -> St) : M unit :=
  fun w => (Done tt, mkProc (f (ui w)) (effects w)).

Definition getState : M St := fun w => (Done (ui w), w).
End Monad.

Arguments ret {St A} a.
Arguments throw {St A} e.
Arguments await {St A} p.
Arguments liftResult {St A} r.
Arguments perform {St} e.
Arguments getState {St}.

Declare Scope async_scope.
Delimit Scope async_scope with async.
Notation "x <- m ;; k" := (bind m (fun x => k))
  (at level 61, m at next level, right associativity) : async_scope.
Notation "m ;; k" := (bind m (fun _ => k))
  (at level 61, right associativity) : async_scope.

End Async.

(* ================================================================== *)
(** * The component, current revision *)
(* ================================================================== *)

Module App.
Import JS Browser Async.
Local Open Scope async_scope.

(** The five [useState] cells.  [generatedCode] is typed [string], but the
    text branch stores whatever the response holds, so the cell is a value. *)
Record state := mkState {
  figmaJson : jsstring;
  imageFile : option File;
  imagePreview : option jsstring;
  generatedCode : value;
  loading : bool
}.

Definition str (s : jsstring) : value := Some (JStr s).

Definition initial : state := mkState [] None None (str []) false.

Definition setFigmaJson (v : jsstring) (s : state) : state :=
  mkState v (imageFile s) (imagePreview s) (generatedCode s) (loading s).
Definition setImageFile (v : option File) (s : state) : state :=
  mkState (figmaJson s) v (imagePreview s) (generatedCode s) (loading s).
Definition setImagePreview (v : option jsstring) (s : state) : state :=
  mkState (figmaJson s) (imageFile s) v (generatedCode s) (loading s).
Definition setGeneratedCode (v : value) (s : state) : state :=
  mkState (figmaJson s) (imageFile s) (imagePreview s) v (loading s).
Definition setLoading (v : bool) (s : state) : state :=
  mkState (figmaJson s) (imageFile s) (imagePreview s) (generatedCode s) v.

(* ------------------------------------------------------------------ *)
(** ** Input handlers *)

(** The component state together with the browser's object URLs. *)
Record world := mkWorld {
  comp : state;
  urls : url_store;
  trace : list effect
}.

(** [setImageFile(file); setImagePreview(URL.createObjectURL(file));
    setFigmaJson(empty)], the body both image handlers share. *)
Definition takeImage (file : File) (w : world) : world :=
  let (imageUrl, store) := createObjectURL file (urls w) in
  mkWorld
    (setFigmaJson [] (setImagePreview (Some imageUrl) (setImageFile (Some file) (comp w))))
    store (trace w).

(** The loop of [handlePaste]; the boolean is [e.defaultPrevented].  The
    [try] around the three setters has nothing to catch: neither they nor
    [URL.createObjectURL] of a [File] throw. *)
Fixpoint pasteItems (items : list DataTransferItem) (w : world) : world * bool :=
  match items with
  | [] => (w, false)
  | item :: rest =>
      match indexOf (js "image") (itemType item) with
      | Some _ =>
          (* e.preventDefault() *)
          match getAsFile item with
          | Some file => (takeImage file w, true)
          | None => (w, true)
          end
          (* break *)
      | None => pasteItems rest w
      end
  end.

(** [handlePaste]: [items] is [e.clipboardData?.items]. *)
Definition handlePaste (items : option (list DataTransferItem)) (w : world) : world * bool :=
  match items with
  | None => (w, false)
  | Some l => pasteItems l w
  end.

(** [handleFileChange]: [files] is [e.target.files]. *)
Definition handleFileChange (files : option (list File)) (w : world) : world :=
  match files with
  | Some (file :: _) => takeImage file w
  | _ => w
  end.

(** The textarea's [onChange]. *)
Definition handleTextChange (v : jsstring) (w : world) : world :=
  mkWorld (setFigmaJson v (comp w)) (urls w) (trace w).

(** The [onClick] of the button over the preview. *)
Definition handleClearClick (w : world) : world :=
  mkWorld (setImageFile None (setImagePreview None (comp w))) (urls w) (trace w).

(* ------------------------------------------------------------------ *)
(** ** The conversion *)

Definition endpoint : jsstring := js "https://api.openai.com/v1/chat/completions".

Definition requestHeaders (E : env) : list (jsstring * jsstring) :=
  [ (js "Content-Type", js "application/json");
    (js "Authorization",
     js "Bearer " ++ match API_KEY E with Some k => k | None => js "undefined" end) ].

Definition imageRequest (E : env) (base64Image : jsstring) : request_init :=
  mkInit (js "POST") (requestHeaders E)
    (mkBody (js "gpt-4o")
       [ mkMessage (js "system")
           (ContentString (js "You are an expert UI developer who converts UI designs into React components with Tailwind CSS. You analyze UI screenshots and generate pixel-perfect code."));
         mkMessage (js "user")
           (ContentParts
              [ TextPart (js "Convert this UI design into React JSX code with Tailwind CSS. Include all text content, styling, and layout exactly as shown. Make it responsive and use semantic HTML.");
                ImageUrlPart base64Image (js "high") ]) ]
       4000 0%Q).

Definition textRequest (E : env) (figma : jsstring) : request_init :=
  mkInit (js "POST") (requestHeaders E)
    (mkBody (js "gpt-4")
       [ mkMessage (js "user")
           (ContentString
              (js "Create a React component with Tailwind CSS based on this Figma JSON. Return ONLY the JSX code without any explanation."
               ++ [10; 10]%N ++ js "Figma JSON:" ++ [10]%N ++ figma)) ]
       4096 (1 # 10)%Q).

(** [fileToBase64] *)
Definition fileToBase64 (E : env) (file : File) : M state jsstring :=
  perform (EReadAsDataURL file) ;;
  await (match readAsDataURL E file with
         | onload (RString result) => Fulfilled result
         | onload _ => Rejected (ErrorObj (js "Failed to convert file to base64"))
         | onerror => Rejected NotAnError
         end).

Definition doFetch (E : env) (url : jsstring) (init : request_init) : M state response :=
  perform (EFetch url init) ;;
  await (fetch E url init).

(** [data.choices[0].message.content] *)
Definition firstContent (data : json) : result value :=
  andThen (get (Some data) choices) (fun ch =>
  andThen (get ch idx0) (fun c0 =>
  andThen (get c0 message) (fun m =>
  get m content))).

(** [data.choices && data.choices[0].message.content] *)
Definition choicesAndContent (data : json) : result value :=
  andThen (get (Some data) choices) (fun ch =>
  if truthy ch then firstContent data else Ok ch).

(** the pattern of the code extraction: three backticks, an optional
    [jsx] or [tsx], white space, the lazily captured text, three backticks *)
Definition fence : jsstring := js "```".

Definition codeFence : regex :=
  Seq (lit fence)
   (Seq (Opt (Alt (lit (js "jsx")) (lit (js "tsx"))))
    (Seq (Star true isWhiteSpace)
     (Seq (Group (Star false (fun c => isWhiteSpace c || negb (isWhiteSpace c))))
          (lit fence)))).

(** [content.match(...)], then [codeMatch ? codeMatch[1].trim() : content] *)
Definition cleanCode (content : value) : result jsstring :=
  match content with
  | Some (JStr s) =>
      match match_ s codeFence with
      | Some codeMatch =>
          match group1 codeMatch with
          | Some g => Ok (trim g)
          | None => Throw (TypeErrorObj (CannotRead None (js "trim")))
          end
      | None => Ok s
      end
  | _ => Throw (TypeErrorObj (NotAFunction (js "content.match")))
  end.

Definition couldNotGenerate : jsstring :=
  js "Error: Could not generate code. Please check your input.".

Definition noInput : jsstring :=
  js "Please provide either Figma JSON or upload a screenshot image.".

(** [error instanceof Error ? error.message : 'Unknown error'] *)
Definition errorText (E : env) (e : thrown) : jsstring :=
  match e with
  | ErrorObj m => m
  | TypeErrorObj t => typeErrorMessage E t
  | NotAnError => js "Unknown error"
  end.

(** [new Error(v)] for a value that is not [undefined] *)
Definition newError (E : env) (v : json) : thrown :=
  ErrorObj (toString (numberToString E) v).

Definition convertFigmaToJSX (E : env) : M state unit :=
  s <- getState ;;
  modify (setLoading true) ;;
  modify (setGeneratedCode (str [])) ;;
  match imageFile s with
  | Some file =>
      tryCatch
        (base64Image <- fileToBase64 E file ;;
         response <- doFetch E endpoint (imageRequest E base64Image) ;;
         (if negb (ok response) then
            errorData <- await (json_ response) ;;
            err <- liftResult (get (Some errorData) error) ;;
            m <- liftResult (getOpt err message) ;;
            throw (newError E (match m with
                               | Some v => if truthy m then v else JStr (js "API request failed")
                               | None => JStr (js "API request failed")
                               end))
          else ret tt) ;;
         data <- await (json_ response) ;;
         perform (EConsoleLog (js "API Response:") data) ;;
         c <- liftResult (choicesAndContent data) ;;
         if truthy c then
           content <- liftResult (firstContent data) ;;
           cleanedCode <- liftResult (cleanCode content) ;;
           modify (setGeneratedCode (str cleanedCode))
         else
           modify (setGeneratedCode (str couldNotGenerate)))
        (fun error =>
           perform (EConsoleError (js "API Error:") error) ;;
           modify (setGeneratedCode (str (js "Error: " ++ errorText E error)))) ;;
      modify (setLoading false)
  | None =>
      match figmaJson s with
      | _ :: _ =>
          tryCatch
            (response <- doFetch E endpoint (textRequest E (figmaJson s)) ;;
             data <- await (json_ response) ;;
             c <- liftResult (choicesAndContent data) ;;
             if truthy c then
               content <- liftResult (firstContent data) ;;
               modify (setGeneratedCode content)
             else
               modify (setGeneratedCode (str couldNotGenerate)))
            (fun error =>
               modify (setGeneratedCode (str (js "Error: " ++ errorText E error))))
      | [] =>
          modify (setGeneratedCode (str noInput)) ;;
          modify (setLoading false)
      end
  end.

(** One run of the conversion from a component state: how it ends, the
    state it leaves and what it did. *)
Definition start (E : env) (s : state) : outcome unit * proc state :=
  convertFigmaToJSX E (mkProc s []).

Definition finalState (E : env) (s : state) : state := ui (snd (start E s)).
Definition sent (E : env) (s : state) : list (jsstring * request_init) :=
  requests (effects (snd (start E s))).

(* ------------------------------------------------------------------ *)
(** ** What is rendered, and the events it admits *)

Definition truthyString (v : option jsstring) : bool :=
  match v with
  | Some (_ :: _) => true
  | _ => false
  end.

Inductive event :=
| FileChange (files : option (list File))
| Paste (items : option (list DataTransferItem))
| TextChange (v : jsstring)
| ClearClick
| ConvertClick.

(** The file input is always there; [imagePreview ? preview : textarea]
    decides between the clear button and the textarea; the convert button
    is [disabled={loading}]. *)
Definition enabled (s : state) (ev : event) : bool :=
  match ev with
  | FileChange _ => true
  | Paste _ | TextChange _ => negb (truthyString (imagePreview s))
  | ClearClick => truthyString (imagePreview s)
  | ConvertClick => negb (loading s)
  end.

Definition handle (E : env) (ev : event) (w : world) : world :=
  match ev with
  | FileChange files => handleFileChange files w
  | Paste items => fst (handlePaste items w)
  | TextChange v => handleTextChange v w
  | ClearClick => handleClearClick w
  | ConvertClick =>
      let r := snd (convertFigmaToJSX E (mkProc (comp w) (trace w))) in
      mkWorld (ui r) (urls w) (effects r)
  end.

Definition initialWorld : world := mkWorld initial [] [].

(** The worlds a user can bring about: from the first render, by events
    the rendered page admits. *)
Inductive reachable (E : env) : world -> Prop :=
| reach_init : reachable E initialWorld
| reach_step w ev :
    reachable E w -> enabled (comp w) ev = true -> reachable E (handle E ev w).

(** The input the conversion acts on, by the order of its branches. *)
Inductive modality :=
| Image (f : File)
| StructuredText (text : jsstring)
| NoInput.

Definition activeModality (s : state) : modality :=
  match imageFile s with
  | Some f => Image f
  | None =>
      match figmaJson s with
      | _ :: _ => StructuredText (figmaJson s)
      | [] => NoInput
      end
  end.

End App.

(* ================================================================== *)
(** * The component, first revision (src/App.tsx) *)
(* ================================================================== *)

Module AppV1.
Import JS Browser Async.
Local Open Scope async_scope.

Record state := mkState {
  figmaJson : jsstring;
  imageFile : option File;
  generatedCode : value;
  loading : bool
}.

Definition str (s : jsstring) : value := Some (JStr s).

Definition initial : state := mkState [] None (str []) false.

Definition setFigmaJson (v : jsstring) (s : state) : state :=
  mkState v (imageFile s) (generatedCode s) (loading s).
Definition setImageFile (v : option File) (s : state) : state :=
  mkState (figmaJson s) v (generatedCode s) (loading s).
Definition setGeneratedCode (v : value) (s : state) : state :=
  mkState (figmaJson s) (imageFile s) v (loading s).
Definition setLoading (v : bool) (s : state) : state :=
  mkState (figmaJson s) (imageFile s) (generatedCode s) v.

Definition handleFileChange (files : option (list File)) (s : state) : state :=
  match files with
  | Some (file :: _) => setImageFile (Some file) s
  | _ => s
  end.

(** [fileToBase64]: the promise resolves with a truthy [result], is
    rejected on [error], and stays pending on a [load] with a falsy
    [result].  The result is only ever interpolated into the prompt, so an
    [ArrayBuffer] stands here as the text the template makes of it. *)
Definition fileToBase64 (E : env) (file : File) : M state jsstring :=
  perform (EReadAsDataURL file) ;;
  await (match readAsDataURL E file with
         | onload (RString (c :: r)) => Fulfilled (c :: r)
         | onload RArrayBuffer => Fulfilled (js "[object ArrayBuffer]")
         | onload (RString []) | onload RNull => Pending
         | onerror => Rejected NotAnError
         end).

Definition imagePrompt (base64Image : jsstring) : jsstring :=
  trim ([10]%N
    ++ js "You are an expert converter that transforms an image screenshot of a Figma component into a fully functional React JSX component styled with Tailwind CSS."
    ++ [10]%N
    ++ js "Analyze the design from the image below (provided as a base64 encoded string) and output only the React JSX code. Do not include any explanation."
    ++ [10; 10]%N ++ js "Image (base64):" ++ [10]%N ++ base64Image
    ++ [10]%N ++ js "        ").

Definition figmaPrompt (figma : jsstring) : jsstring :=
  trim ([10]%N
    ++ js "You are an expert converter that transforms Figma design JSON into a fully functional React JSX component styled with Tailwind CSS."
    ++ [10]%N
    ++ js "Generate only the code based on the Figma JSON below. Do not include any additional explanation."
    ++ [10; 10]%N ++ js "Figma JSON:" ++ [10]%N ++ figma
    ++ [10]%N ++ js "      ").

Definition promptRequest (E : env) (prompt : jsstring) : request_init :=
  mkInit (js "POST") (App.requestHeaders E)
    (mkBody (js "gpt-4") [ mkMessage (js "user") (ContentString prompt) ] 1500 0%Q).

Definition doFetch (E : env) (url : jsstring) (init : request_init) : M state response :=
  perform (EFetch url init) ;;
  await (fetch E url init).

(** The part of [convertFigmaToJSX] that builds the prompt: [None] when
    the function has returned. *)
Definition buildPrompt (E : env) (s : state) : M state (option jsstring) :=
  match imageFile s with
  | Some file =>
      tryCatch
        (base64Image <- fileToBase64 E file ;;
         ret (Some (imagePrompt base64Image)))
        (fun error =>
           modify (setGeneratedCode
                     (str (js "Error processing image: " ++ App.errorText E error))) ;;
           modify (setLoading false) ;;
           ret None)
  | None =>
      match figmaJson s with
      | _ :: _ => ret (Some (figmaPrompt (figmaJson s)))
      | [] =>
          modify (setGeneratedCode (str App.noInput)) ;;
          modify (setLoading false) ;;
          ret None
      end
  end.

Definition convertFigmaToJSX (E : env) : M state unit :=
  s <- getState ;;
  modify (setLoading true) ;;
  modify (setGeneratedCode (str [])) ;;
  p <- buildPrompt E s ;;
  match p with
  | None => ret tt
  | Some prompt =>
      tryCatch
        (response <- doFetch E App.endpoint (promptRequest E prompt) ;;
         data <- await (json_ response) ;;
         c <- liftResult (App.choicesAndContent data) ;;
         if truthy c then
           content <- liftResult (App.firstContent data) ;;
           modify (setGeneratedCode content)
         else
           modify (setGeneratedCode (str App.couldNotGenerate)))
        (fun error =>
           modify (setGeneratedCode (str (js "Error: " ++ App.errorText E error)))) ;;
      modify (setLoading false)
  end.

Definition start (E : env) (s : state) : outcome unit * proc state :=
  convertFigmaToJSX E (mkProc s []).

End AppV1.

(* ================================================================== *)
(** * The pattern as a scanner, and what the statements need *)
(* ================================================================== *)

Module Scan.
Import JS Browser Async App.

(** The first occurrence of [p] in [s]: the text before it and the text
    behind it. *)
Fixpoint splitOn (p s : jsstring) : option (jsstring * jsstring) :=
  match stripPrefix p s with
  | Some rest => Some ([], rest)
  | None =>
      match s with
      | [] => None
      | c :: s' =>
          match splitOn p s' with
          | Some (b, a) => Some (c :: b, a)
          | None => None
          end
      end
  end.

(** A leading [jsx] or [tsx] removed. *)
Definition stripTag (y : jsstring) : jsstring :=
  match stripPrefix (js "jsx") y with
  | Some y' => y'
  | None =>
      match stripPrefix (js "tsx") y with
      | Some y' => y'
      | None => y
      end
  end.

(** The text between the first fence and the next one, without the tag
    and trimmed; [None] when the first fence is not closed. *)
Definition fencedCode (s : jsstring) : option jsstring :=
  match splitOn fence s with
  | None => None
  | Some (_, y) =>
      match splitOn fence y with
      | Some (body, _) => Some (trim (stripTag body))
      | None => None
      end
  end.

(** The tails of [codeFence], from the right. *)
Definition anyUnit (c : N) : bool := isWhiteSpace c || negb (isWhiteSpace c).
Definition captureRest : regex := Seq (Group (Star false anyUnit)) (lit fence).
Definition afterTag : regex := Seq (Star true isWhiteSpace) captureRest.
Definition tagged : regex :=
  Seq (Opt (Alt (lit (js "jsx")) (lit (js "tsx")))) afterTag.

(** No fence of [z] is followed by another one. *)
Definition unclosed (z : jsstring) : Prop :=
  forall a y, z = a ++ fence ++ y -> splitOn fence y = None.

(** The references of the image parts of a request body. *)
Definition partsOf (c : message_content) : list content_part :=
  match c with
  | ContentParts ps => ps
  | ContentString _ => []
  end.

Definition imageRefs (b : completion_body) : list jsstring :=
  flat_map
    (fun m =>
       flat_map (fun p => match p with ImageUrlPart u _ => [u] | TextPart _ => [] end)
                (partsOf (msgContent m)))
    (messages b).

(** The messages of a request body whose role is [user]. *)
Definition userMessages (b : completion_body) : list chat_message :=
  filter (fun m => eqb (role m) (js "user")) (messages b).

(** The cells the input handlers own. *)
Definition sameInputs (s s' : state) : Prop :=
  figmaJson s' = figmaJson s /\ imageFile s' = imageFile s
  /\ imagePreview s' = imagePreview s.

(** An image and its preview go together, and then the text is empty. *)
Definition exclusive (s : state) : Prop :=
  match imageFile s with
  | Some _ => truthyString (imagePreview s) = true /\ figmaJson s = []
  | None => imagePreview s = None
  end.

End Scan.

(* ================================================================== *)
(** * Sample files, responses and environments *)
(* ================================================================== *)

Module Sample.
Import JS Browser Async App.

Definition png : File := mkFile (js "shot.png") (js "image/png") [Byte.x89; Byte.x50; Byte.x4e].
Definition jpg : File := mkFile (js "b.jpg") (js "image/jpeg") [Byte.xff; Byte.xd8].

(** the wording of one engine *)
Definition v8TypeError (t : type_error) : jsstring :=
  match t with
  | CannotRead base name =>
      js "Cannot read properties of "
      ++ match base with None => js "undefined" | Some _ => js "null" end
      ++ js " (reading '" ++ name ++ js "')"
  | NotAFunction name => name ++ js " is not a function"
  end.

(** integers only, which is all the samples hold *)
Definition printNumber (q : Q) : jsstring :=
  js (NilEmpty.string_of_int (Z.to_int (Qnum q / Zpos (Qden q)))).

(** a browser that reads every file and answers every request with [r] *)
Definition answering (r : promise response) : env :=
  mkEnv (Some (js "sk-test")) (fun f => onload (RString (dataURL f)))
        (fun _ _ => r) v8TypeError printNumber.

Definition completion (text : jsstring) : json :=
  JObj [ (js "choices",
          JArr [ JObj [ (js "message", JObj [ (js "content", JStr text) ]) ] ]) ].

Definition serviceError (text : jsstring) : json :=
  JObj [ (js "error", JObj [ (js "message", JStr text) ]) ].

Definition fenced : jsstring :=
  js "```jsx" ++ [10]%N ++ js "<div/>" ++ [10]%N ++ js "```".

Definition textState : state := mkState (js "{}") None None (str []) false.
Definition imageState : state := mkState [] (Some png) (Some (js "blob:0")) (str []) false.

End Sample.

(* ================================================================== *)
(** * What the component renders *)
(* ================================================================== *)

Module View.
Import JS Browser Async App.

(** The elements [App] returns, as far as they depend on the state: the
    preview with its clear button or else the textarea, the two buttons and
    the child of the result area. *)
Record view := mkView {
  previewSrc : option jsstring;
  textareaValue : option jsstring;
  convertDisabled : bool;
  convertLabel : jsstring;
  copyDisabled : bool;
  output : value
}.

Definition placeholder : jsstring := js "Your generated JSX code will appear here.".

Definition render (s : state) : view :=
  mkView
    (if truthyString (imagePreview s) then imagePreview s else None)
    (if truthyString (imagePreview s) then None else Some (figmaJson s))
    (loading s)
    (if loading s then js "Converting..." else js "Convert")
    (negb (truthy (generatedCode s)))
    (if truthy (generatedCode s) then generatedCode s else str placeholder).

(** A value React takes as a child: anything but a plain object, also
    inside arrays. *)
Fixpoint renderable (v : json) : bool :=
  match v with
  | JObj _ => false
  | JArr elems => forallb renderable elems
  | _ => true
  end.

(** What is on the screen.  React throws on a child that is an object;
    the component has no error boundary, so the page is unmounted and
    nothing is shown. *)
Definition displayed (s : state) : option view :=
  match output (render s) with
  | Some j => if renderable j then Some (render s) else None
  | None => Some (render s)
  end.

(** The preview cell holds an object URL registered for the file cell. *)
Definition previewRegistered (w : world) : Prop :=
  match imagePreview (comp w), imageFile (comp w) with
  | Some u, Some f => In (u, f) (urls w)
  | None, None => True
  | _, _ => False
  end.

(** The order of the conversion's effects when an image is read and the
    service answers. *)
Definition imageRunEffects (E : env) (f : File) (r : jsstring) (data : json) : list effect :=
  [ EReadAsDataURL f; EFetch endpoint (imageRequest E r);
    EConsoleLog (js "API Response:") data ].

(** The fixed text the first revision puts before the image's data URL. *)
Definition imageHeader : jsstring :=
  js "You are an expert converter that transforms an image screenshot of a Figma component into a fully functional React JSX component styled with Tailwind CSS."
  ++ [10]%N
  ++ js "Analyze the design from the image below (provided as a base64 encoded string) and output only the React JSX code. Do not include any explanation."
  ++ [10; 10]%N ++ js "Image (base64):" ++ [10]%N.

(** The fixed text the first revision puts before the Figma JSON. *)
Definition figmaHeader : jsstring :=
  js "You are an expert converter that transforms Figma design JSON into a fully functional React JSX component styled with Tailwind CSS."
  ++ [10]%N
  ++ js "Generate only the code based on the Figma JSON below. Do not include any additional explanation."
  ++ [10; 10]%N ++ js "Figma JSON:" ++ [10]%N.

End View.

(* ================================================================== *)
(** * Facts about strings and the matcher *)
(* ================================================================== *)

Unset Implicit Arguments.
Import JS Browser Async App Scan.

Section MatcherFacts.
Variable R : Type.

Lemma matcher_lit (p x : jsstring) cap (k : cont R) :
  matcher (lit p) x cap k =
  match stripPrefix p x with Some y => k y cap | None => None end.
Proof.
  revert x; induction p as [|c p IH]; intros x; cbn.
  - reflexivity.
  - destruct x as [|d x]; [reflexivity|].
    destruct (N.eqb c d); [apply IH | reflexivity].
Qed.

Lemma starGreedy_ext p (k k' : jsstring -> option R) x :
  (forall y, k y = k' y) -> starGreedy p k x = starGreedy p k' x.
Proof.
  intros H; induction x as [|c x IH]; cbn; [apply H|].
  rewrite IH, H. reflexivity.
Qed.

Lemma starLazy_ext p (k k' : jsstring -> option R) x :
  (forall y, k y = k' y) -> starLazy p k x = starLazy p k' x.
Proof.
  intros H; induction x as [|c x IH]; cbn; rewrite H; [reflexivity|].
  rewrite IH. reflexivity.
Qed.
End MatcherFacts.

Lemma stripPrefix_Some p : forall x y, stripPrefix p x = Some y -> x = p ++ y.
Proof.
  induction p as [|a p IH]; intros x y; cbn.
  - now intros [= ->].
  - destruct x as [|b x]; [discriminate|].
    destruct (N.eqb a b) eqn:Hab; [|discriminate].
    apply N.eqb_eq in Hab; subst b. intros H; apply IH in H. now subst.
Qed.

Lemma stripPrefix_app p y : stripPrefix p (p ++ y) = Some y.
Proof. induction p as [|a p IH]; cbn; [reflexivity|]. now rewrite N.eqb_refl. Qed.

Lemma stripPrefix_app_Some p : forall b t r,
  stripPrefix p b = Some t -> stripPrefix p (b ++ r) = Some (t ++ r).
Proof.
  intros b t r H. apply stripPrefix_Some in H; subst b.
  rewrite <- app_assoc. apply stripPrefix_app.
Qed.

Lemma splitOn_Some p : forall s b a, splitOn p s = Some (b, a) -> s = b ++ p ++ a.
Proof.
  induction s as [|c s IH]; intros b a; cbn.
  - destruct (stripPrefix p []) eqn:H; [|discriminate].
    intros [= <- <-]. now apply stripPrefix_Some in H.
  - destruct (stripPrefix p (c :: s)) eqn:H.
    + intros [= <- <-]. now apply stripPrefix_Some in H.
    + destruct (splitOn p s) as [[b' a']|]; [|discriminate].
      intros [= <- <-]. cbn. f_equal. now apply IH.
Qed.

Lemma stripPrefix_fence_other c z : c <> 96%N -> stripPrefix fence (c :: z) = None.
Proof.
  intros Hc.
  change (stripPrefix fence (c :: z))
    with (if N.eqb 96 c then stripPrefix [96; 96]%N z else None).
  destruct (N.eqb_spec 96 c); congruence.
Qed.

Lemma splitOn_cons_other c z :
  c <> 96%N ->
  splitOn fence (c :: z) =
  match splitOn fence z with Some (b, a) => Some (c :: b, a) | None => None end.
Proof.
  intros Hc. cbn [splitOn]. now rewrite stripPrefix_fence_other.
Qed.

Lemma ws_not_backtick c : isWhiteSpace c = true -> c <> 96%N.
Proof. intros H ->. discriminate. Qed.

Lemma splitOn_trimStart z :
  splitOn fence (trimStart z) =
  match splitOn fence z with
  | Some (b, a) => Some (trimStart b, a)
  | None => None
  end.
Proof.
  induction z as [|c z IH]; [reflexivity|].
  cbn [trimStart]. destruct (isWhiteSpace c) eqn:Hc.
  - rewrite IH, (splitOn_cons_other c z (ws_not_backtick c Hc)).
    destruct (splitOn fence z) as [[b a]|]; [|reflexivity].
    cbn [trimStart]. now rewrite Hc.
  - cbn [splitOn]. destruct (stripPrefix fence (c :: z)); [reflexivity|].
    destruct (splitOn fence z) as [[b a]|]; [|reflexivity].
    cbn [trimStart]. now rewrite Hc.
Qed.

Lemma stripPrefix_prefix_None p b r :
  stripPrefix p (b ++ r) = None -> stripPrefix p b = None.
Proof.
  intros H. destruct (stripPrefix p b) eqn:Hb; [|reflexivity].
  rewrite (stripPrefix_app_Some _ _ _ r Hb) in H. discriminate.
Qed.

Lemma stripTag_keeps b r :
  stripPrefix (js "jsx") (b ++ r) = None ->
  stripPrefix (js "tsx") (b ++ r) = None ->
  stripTag b = b.
Proof.
  intros H1 H2. unfold stripTag.
  now rewrite (stripPrefix_prefix_None _ _ _ H1), (stripPrefix_prefix_None _ _ _ H2).
Qed.

Lemma splitOn_after_tag (t : jsstring) y :
  Forall (fun c => c <> 96%N) t ->
  splitOn fence (t ++ y) =
  match splitOn fence y with Some (b, a) => Some (t ++ b, a) | None => None end.
Proof.
  induction 1 as [|c t Hc Ht IH]; cbn [app].
  - now destruct (splitOn fence y) as [[b a]|].
  - rewrite (splitOn_cons_other _ _ Hc), IH.
    now destruct (splitOn fence y) as [[b a]|].
Qed.

Lemma stripTag_app_tag t b :
  t = js "jsx" \/ t = js "tsx" -> stripTag (t ++ b) = b.
Proof. intros [-> | ->]; unfold stripTag; reflexivity. Qed.

Lemma tag_no_backtick t :
  t = js "jsx" \/ t = js "tsx" -> Forall (fun c => c <> 96%N) t.
Proof. intros [-> | ->]; repeat constructor; discriminate. Qed.

Lemma splitOn_stripTag y :
  splitOn fence (stripTag y) =
  match splitOn fence y with
  | Some (b, a) => Some (stripTag b, a)
  | None => None
  end.
Proof.
  unfold stripTag at 1.
  destruct (stripPrefix (js "jsx") y) as [y'|] eqn:Hj.
  - apply stripPrefix_Some in Hj; subst y.
    rewrite splitOn_after_tag by (apply tag_no_backtick; auto).
    destruct (splitOn fence y') as [[b a]|]; [|reflexivity].
    rewrite stripTag_app_tag; auto.
  - destruct (stripPrefix (js "tsx") y) as [y'|] eqn:Ht.
    + apply stripPrefix_Some in Ht; subst y.
      rewrite splitOn_after_tag by (apply tag_no_backtick; auto).
      destruct (splitOn fence y') as [[b a]|]; [|reflexivity].
      rewrite stripTag_app_tag; auto.
    + destruct (splitOn fence y) as [[b a]|] eqn:Hs; [|reflexivity].
      apply splitOn_Some in Hs; subst y.
      now rewrite (stripTag_keeps _ _ Hj Ht).
Qed.

Lemma anyUnit_true c : anyUnit c = true.
Proof. unfold anyUnit. apply orb_negb_r. Qed.

Lemma firstn_prefix (pre z : jsstring) :
  firstn (length (pre ++ z) - length z) (pre ++ z) = pre.
Proof.
  rewrite length_app, Nat.add_sub.
  rewrite firstn_app, Nat.sub_diag, firstn_all. cbn. apply app_nil_r.
Qed.

Section FenceMatch.
Variable R : Type.
Variable k : cont R.
Hypothesis k_total : forall y c, k y c <> None.

(** the lazy star followed by the closing fence stops at the first fence *)
Lemma lazy_until_fence z0 : forall z pre,
  z0 = pre ++ z ->
  starLazy anyUnit
    (fun y => matcher (lit fence) y (Some (firstn (length z0 - length y) z0)) k) z
  = match splitOn fence z with
    | Some (b, a) => k a (Some (pre ++ b))
    | None => None
    end.
Proof.
  induction z as [|c z IH]; intros pre Hz0.
  - cbn [starLazy splitOn]. rewrite matcher_lit. reflexivity.
  - cbn [starLazy splitOn]. rewrite matcher_lit.
    destruct (stripPrefix fence (c :: z)) as [rest|] eqn:Hp.
    + subst z0. rewrite firstn_prefix, app_nil_r.
      destruct (k rest (Some pre)) eqn:Hk; [reflexivity|].
      now apply k_total in Hk.
    + rewrite anyUnit_true.
      rewrite (IH (pre ++ [c])) by (now rewrite <- app_assoc).
      destruct (splitOn fence z) as [[b a]|]; [|reflexivity].
      now rewrite <- app_assoc.
Qed.

Lemma matcher_captureRest z cap :
  matcher captureRest z cap k =
  match splitOn fence z with
  | Some (b, a) => k a (Some b)
  | None => None
  end.
Proof.
  cbn [captureRest matcher].
  exact (lazy_until_fence z z [] eq_refl).
Qed.

Lemma captureRest_None z cap :
  matcher captureRest z cap k = None <-> splitOn fence z = None.
Proof.
  rewrite matcher_captureRest.
  destruct (splitOn fence z) as [[b a]|]; split; try congruence.
  all: try (intros H; now apply k_total in H).
Qed.
End FenceMatch.

Section Greedy.
Variable R : Type.
Variable G : jsstring -> option R.
Hypothesis G_ws : forall c y, isWhiteSpace c = true -> G y = None -> G (c :: y) = None.

Lemma G_trimStart_None y : G (trimStart y) = None -> G y = None.
Proof.
  induction y as [|c y IH]; cbn [trimStart]; [trivial|].
  destruct (isWhiteSpace c) eqn:Hc; [|trivial].
  intros H. apply G_ws; auto.
Qed.

(** the greedy star over white space gives nothing back *)
Lemma starGreedy_trimStart y :
  starGreedy isWhiteSpace G y = G (trimStart y).
Proof.
  induction y as [|c y IH]; cbn [starGreedy trimStart]; [reflexivity|].
  destruct (isWhiteSpace c) eqn:Hc; [|reflexivity].
  rewrite IH. destruct (G (trimStart y)) eqn:Hg; [reflexivity|].
  apply G_ws; [assumption|]. now apply G_trimStart_None.
Qed.
End Greedy.

Lemma trimStart_nonws c y : isWhiteSpace c = false -> trimStart (c :: y) = c :: y.
Proof. intros H. cbn. now rewrite H. Qed.

Section Pattern.
Variable R : Type.
Variable k : cont R.
Hypothesis k_total : forall y c, k y c <> None.

Lemma matcher_afterTag y cap :
  matcher afterTag y cap k = matcher captureRest (trimStart y) cap k.
Proof.
  cbn [afterTag matcher].
  apply (starGreedy_trimStart R (fun y => matcher captureRest y cap k)).
  intros c z Hc H.
  apply (captureRest_None R k k_total) in H.
  apply (captureRest_None R k k_total).
  rewrite (splitOn_cons_other c z (ws_not_backtick c Hc)), H. reflexivity.
Qed.

Lemma afterTag_None y cap :
  matcher afterTag y cap k = None <-> splitOn fence y = None.
Proof.
  rewrite matcher_afterTag, (captureRest_None R k k_total), splitOn_trimStart.
  destruct (splitOn fence y) as [[b a]|]; split; congruence.
Qed.

Lemma afterTag_tag_None t y cap :
  t = js "jsx" \/ t = js "tsx" ->
  matcher afterTag y cap k = None -> matcher afterTag (t ++ y) cap k = None.
Proof.
  intros Ht H. apply afterTag_None in H. apply afterTag_None.
  rewrite (splitOn_after_tag t y (tag_no_backtick t Ht)), H. reflexivity.
Qed.

Lemma matcher_tagged y cap :
  matcher tagged y cap k = matcher afterTag (stripTag y) cap k.
Proof.
  cbn [tagged matcher]. rewrite !matcher_lit. unfold stripTag.
  destruct (stripPrefix (js "jsx") y) as [y'|] eqn:Hj.
  - destruct (matcher afterTag y' cap k) eqn:Hm; [reflexivity|].
    apply stripPrefix_Some in Hj; subst y.
    change (stripPrefix (js "tsx") (js "jsx" ++ y')) with (@None jsstring).
    apply afterTag_tag_None; auto.
  - destruct (stripPrefix (js "tsx") y) as [y'|] eqn:Ht; [|reflexivity].
    destruct (matcher afterTag y' cap k) eqn:Hm; [reflexivity|].
    apply stripPrefix_Some in Ht; subst y.
    apply afterTag_tag_None; auto.
Qed.

Lemma codeFence_eq : codeFence = Seq (lit fence) tagged.
Proof. reflexivity. Qed.

Lemma matcher_codeFence x cap :
  matcher codeFence x cap k =
  match stripPrefix fence x with
  | None => None
  | Some y =>
      match splitOn fence y with
      | Some (body, a) => k a (Some (trimStart (stripTag body)))
      | None => None
      end
  end.
Proof.
  rewrite codeFence_eq. cbn [matcher]. rewrite matcher_lit.
  destruct (stripPrefix fence x) as [y|]; [|reflexivity].
  rewrite matcher_tagged, matcher_afterTag, (matcher_captureRest R k k_total).
  rewrite splitOn_trimStart, splitOn_stripTag.
  now destruct (splitOn fence y) as [[b a]|].
Qed.
End Pattern.

Lemma matchAt_codeFence i x :
  option_map group1 (matchAt codeFence i x) =
  match stripPrefix fence x with
  | None => None
  | Some y =>
      match splitOn fence y with
      | Some (body, _) => Some (Some (trimStart (stripTag body)))
      | None => None
      end
  end.
Proof.
  unfold matchAt. rewrite matcher_codeFence by discriminate.
  destruct (stripPrefix fence x) as [y|]; [|reflexivity].
  now destruct (splitOn fence y) as [[b a]|].
Qed.

Lemma splitOn_None_suffix p l : forall s, splitOn p (l ++ s) = None -> splitOn p s = None.
Proof.
  induction l as [|c l IH]; intros s; cbn [app]; [trivial|].
  cbn [splitOn]. destruct (stripPrefix p (c :: l ++ s)); [discriminate|].
  destruct (splitOn p (l ++ s)) as [[b a]|] eqn:H; [discriminate|].
  intros _. now apply IH.
Qed.

Lemma unclosed_tail c z : unclosed (c :: z) -> unclosed z.
Proof. intros H a y ->. apply (H (c :: a) y). reflexivity. Qed.

Lemma execFrom_unclosed : forall z i, unclosed z -> execFrom codeFence i z = None.
Proof.
  induction z as [|c z IH]; intros i Hz.
  - reflexivity.
  - cbn [execFrom].
    pose proof (matchAt_codeFence i (c :: z)) as Hm.
    destruct (stripPrefix fence (c :: z)) as [y|] eqn:Hp.
    + apply stripPrefix_Some in Hp.
      rewrite (Hz [] y Hp) in Hm.
      destruct (matchAt codeFence i (c :: z)); [discriminate|].
      apply IH. now apply unclosed_tail in Hz.
    + destruct (matchAt codeFence i (c :: z)); [discriminate|].
      apply IH. now apply unclosed_tail in Hz.
Qed.

Lemma unclosed_after_open y :
  splitOn fence y = None -> unclosed ([96; 96]%N ++ y).
Proof.
  intros Hy a y2 H.
  change (a ++ fence ++ y2) with (a ++ [96; 96; 96]%N ++ y2) in H.
  rewrite app_assoc in H.
  apply app_eq_app in H. destruct H as [l [[H1 H2] | [H1 H2]]].
  - apply (f_equal (@length N)) in H1. rewrite !length_app in H1. cbn in H1. lia.
  - subst y. now apply splitOn_None_suffix in Hy.
Qed.

(** [exec] finds the first fence that is closed, which is the first fence *)
Lemma execFrom_codeFence : forall x i,
  option_map group1 (execFrom codeFence i x) =
  match splitOn fence x with
  | None => None
  | Some (_, y) =>
      match splitOn fence y with
      | Some (body, _) => Some (Some (trimStart (stripTag body)))
      | None => None
      end
  end.
Proof.
  induction x as [|c x IH]; intros i.
  - reflexivity.
  - cbn [execFrom splitOn].
    pose proof (matchAt_codeFence i (c :: x)) as Hm.
    destruct (stripPrefix fence (c :: x)) as [y|] eqn:Hp.
    + destruct (splitOn fence y) as [[b a]|] eqn:Hy.
      * destruct (matchAt codeFence i (c :: x)); [exact Hm | discriminate].
      * destruct (matchAt codeFence i (c :: x)); [discriminate|].
        apply stripPrefix_Some in Hp.
        change fence with ([96]%N ++ [96; 96]%N) in Hp. cbn [app] in Hp.
        injection Hp as -> ->.
        pose proof (execFrom_unclosed _ (S i) (unclosed_after_open y Hy)) as Hu.
        cbn [app] in Hu. rewrite Hu. reflexivity.
    + destruct (matchAt codeFence i (c :: x)); [discriminate|].
      rewrite IH. now destruct (splitOn fence x) as [[b a]|].
Qed.

Lemma trimStart_idem z : trimStart (trimStart z) = trimStart z.
Proof.
  induction z as [|c z IH]; [reflexivity|].
  cbn [trimStart]. destruct (isWhiteSpace c) eqn:Hc; [assumption|].
  cbn [trimStart]. now rewrite Hc.
Qed.

Lemma trim_trimStart z : trim (trimStart z) = trim z.
Proof. unfold trim. now rewrite trimStart_idem. Qed.

(** [splitOn] finds an occurrence exactly when there is one, and then
    the first. *)
Lemma splitOn_None_iff p : forall s,
  splitOn p s = None <-> (forall b a, s <> b ++ p ++ a).
Proof.
  induction s as [|c s IH]; cbn [splitOn].
  - destruct (stripPrefix p []) as [r|] eqn:Hp.
    + split; [discriminate|]. intros H. exfalso.
      apply stripPrefix_Some in Hp. exact (H [] r Hp).
    + split; [|reflexivity]. intros _ b a H.
      destruct b as [|x b]; [|discriminate].
      cbn [app] in H. rewrite H, stripPrefix_app in Hp. discriminate.
  - destruct (stripPrefix p (c :: s)) as [r|] eqn:Hp.
    + split; [discriminate|]. intros H. exfalso.
      apply stripPrefix_Some in Hp. exact (H [] r Hp).
    + destruct (splitOn p s) as [[b0 a0]|] eqn:Hs.
      * split; [discriminate|]. intros H. exfalso.
        apply splitOn_Some in Hs. apply (H (c :: b0) a0). cbn. now f_equal.
      * split; [|reflexivity]. intros _ b a H.
        destruct b as [|x b].
        -- cbn [app] in H. rewrite H, stripPrefix_app in Hp. discriminate.
        -- injection H as -> H. destruct IH as [IH _].
           exact (IH eq_refl b a H).
Qed.

Lemma splitOn_first p : forall s b a b' a',
  splitOn p s = Some (b, a) -> s = b' ++ p ++ a' -> length b <= length b'.
Proof.
  induction s as [|c s IH]; intros b a b' a'; cbn [splitOn].
  - destruct (stripPrefix p []); [|discriminate].
    intros [= <- <-] _. cbn. lia.
  - destruct (stripPrefix p (c :: s)) as [r|] eqn:Hp.
    + intros [= <- <-] _. cbn. lia.
    + destruct (splitOn p s) as [[b0 a0]|] eqn:Hs; [|discriminate].
      intros [= <- <-] H. destruct b' as [|x b'].
      * cbn [app] in H. rewrite H, stripPrefix_app in Hp. discriminate.
      * injection H as -> H. cbn. apply le_n_S. exact (IH b0 a0 b' a' eq_refl H).
Qed.

(* ================================================================== *)
(** * The code extraction *)
(* ================================================================== *)

(** The extraction is the scanner. *)
Lemma cleanCode_scan (s : jsstring) :
  cleanCode (Some (JStr s)) =
  Ok (match fencedCode s with Some code => code | None => s end).
Proof.
  unfold cleanCode, match_, fencedCode.
  pose proof (execFrom_codeFence s 0) as H.
  destruct (execFrom codeFence 0 s) as [m|]; cbn [option_map] in H.
  - destruct (splitOn fence s) as [[pre y]|]; [|discriminate].
    destruct (splitOn fence y) as [[body post]|]; [|discriminate].
    injection H as ->. now rewrite trim_trimStart.
  - destruct (splitOn fence s) as [[pre y]|]; [|reflexivity].
    destruct (splitOn fence y) as [[body post]|]; [discriminate|reflexivity].
Qed.


(** C4, as the code has it: on every string the extraction returns a
    string and never throws.  When the first fence (three backticks) is
    followed by another fence, the result is the text between the two,
    without a leading [jsx] or [tsx] and trimmed; no other tag is taken
    off.  In every other case the result is the input itself, untrimmed. *)
Theorem C4_cleanCode_scans_first_fence (s : jsstring) :
  cleanCode (Some (JStr s)) =
  Ok (match splitOn fence s with
      | Some (_, rest) =>
          match splitOn fence rest with
          | Some (body, _) => trim (stripTag body)
          | None => s
          end
      | None => s
      end).
Proof.
  rewrite cleanCode_scan. unfold fencedCode.
  destruct (splitOn fence s) as [[pre rest]|]; [|reflexivity].
  destruct (splitOn fence rest) as [[body post]|]; reflexivity.
Qed.

(** C4 as stated fails: a text without any fence comes back with its
    outer white space, and a tag other than [jsx] and [tsx] stays in the
    result. *)
Lemma C4_unfenced_text_is_not_trimmed :
  let s := [32; 97; 32]%N in
  let t := js "```html" ++ [10]%N ++ js "<p/>" ++ js "```" in
  splitOn fence s = None
  /\ cleanCode (Some (JStr s)) = Ok s
  /\ trim s = [97]%N
  /\ cleanCode (Some (JStr s)) <> Ok (trim s)
  /\ cleanCode (Some (JStr t)) = Ok (js "html" ++ [10]%N ++ js "<p/>").
Proof.
  cbv zeta. repeat split; try (vm_compute; reflexivity).
  vm_compute. discriminate.
Qed.

(** the two examples of the specification *)
Example cleanCode_fenced :
  cleanCode (Some (JStr (js "```jsx" ++ [10]%N ++ js "CODE" ++ [10]%N ++ js "```")))
  = Ok (js "CODE").
Proof. vm_compute. reflexivity. Qed.

Example cleanCode_plain :
  cleanCode (Some (JStr (js "plain text, no fence"))) = Ok (js "plain text, no fence").
Proof. vm_compute. reflexivity. Qed.

(* ================================================================== *)
(** * The conversion *)
(* ================================================================== *)

(** Run the monadic code as far as it goes without knowing the environment. *)
Ltac mrun :=
  cbv beta iota zeta delta
    [start finalState sent convertFigmaToJSX bind getState modify tryCatch
     doFetch fileToBase64 perform await liftResult throw ret ui effects fst snd
     imageFile figmaJson app negb].

Ltac mrun1 :=
  cbv beta iota zeta delta
    [AppV1.start AppV1.convertFigmaToJSX AppV1.buildPrompt AppV1.doFetch
     AppV1.fileToBase64 bind getState modify tryCatch perform await liftResult
     throw ret ui effects fst snd AppV1.imageFile AppV1.figmaJson app].

(** Split on what the code is waiting for next. *)
Ltac destruct_head :=
  match goal with
  | |- context [match ?x with _ => _ end] =>
      lazymatch x with
      | context [match _ with _ => _ end] => fail
      | _ => destruct x eqn:?
      end
  end.

Ltac all_paths := mrun; repeat (destruct_head; mrun).

(** The conversion writes [generatedCode] and [loading] only. *)
Lemma convert_sameInputs (E : env) (s : state) (l : list effect) :
  sameInputs s (ui (snd (convertFigmaToJSX E (mkProc s l)))).
Proof.
  destruct s as [fj [f|] pv gc ld]; [|destruct fj];
    all_paths; repeat split.
Qed.

(** The image branch and the branch without input end with
    [setLoading(false)]. *)
Lemma image_branch_clears_loading (E : env) fj f pv gc l :
  fst (start E (mkState fj (Some f) pv gc l)) = Done tt ->
  loading (finalState E (mkState fj (Some f) pv gc l)) = false.
Proof. all_paths; (reflexivity || discriminate). Qed.

(** The text branch has no [setLoading(false)]: whatever the network
    does, the flag stays as [setLoading(true)] left it. *)
Lemma text_branch_keeps_loading (E : env) c r pv gc l :
  loading (finalState E (mkState (c :: r) None pv gc l)) = true.
Proof. all_paths; reflexivity. Qed.

(** Without an image, and with one whose read fails, nothing is sent. *)
Lemma sent_at_most_one (E : env) (s : state) :
  length (sent E s) <= 1.
Proof.
  destruct s as [fj [f|] pv gc ld]; [|destruct fj];
    all_paths; cbn; lia.
Qed.

(** C2: with no image file and an empty text, the conversion ends at once:
    the result area shows the request for input, the busy flag is cleared,
    and the run has no effect at all, so no request leaves.  Both revisions
    of the component do so. *)
Theorem C2_no_input_no_request (E : env) :
  (forall s : App.state,
      App.imageFile s = None -> App.figmaJson s = [] ->
      fst (App.start E s) = Done tt
      /\ App.generatedCode (ui (snd (App.start E s))) = App.str App.noInput
      /\ App.loading (ui (snd (App.start E s))) = false
      /\ effects (snd (App.start E s)) = [])
  /\ (forall s : AppV1.state,
      AppV1.imageFile s = None -> AppV1.figmaJson s = [] ->
      fst (AppV1.start E s) = Done tt
      /\ AppV1.generatedCode (ui (snd (AppV1.start E s))) = AppV1.str App.noInput
      /\ AppV1.loading (ui (snd (AppV1.start E s))) = false
      /\ effects (snd (AppV1.start E s)) = []).
Proof.
  split.
  - intros [fj im pv gc l]; cbn [App.imageFile App.figmaJson]; intros -> ->.
    mrun. repeat split.
  - intros [fj im gc l]; cbn [AppV1.imageFile AppV1.figmaJson]; intros -> ->.
    mrun1. repeat split.
Qed.

Lemma C2_no_input_no_request_witness :
  (App.imageFile App.initial = None /\ App.figmaJson App.initial = []
   /\ effects (snd (App.start (Sample.answering Pending) App.initial)) = [])
  /\ (AppV1.imageFile AppV1.initial = None /\ AppV1.figmaJson AppV1.initial = []
      /\ effects (snd (AppV1.start (Sample.answering Pending) AppV1.initial)) = []).
Proof.
  split.
  - split; [reflexivity | split; [reflexivity|]].
    apply (proj1 (C2_no_input_no_request (Sample.answering Pending)) App.initial);
      reflexivity.
  - split; [reflexivity | split; [reflexivity|]].
    apply (proj2 (C2_no_input_no_request (Sample.answering Pending)) AppV1.initial);
      reflexivity.
Defined.

(** C3, at the failing input: a text conversion that the service answers
    with a completion runs to its end and shows the code, and the busy
    flag is still set.  The same answer to an image conversion leaves the
    flag cleared. *)
Theorem C3_text_conversion_stays_busy :
  let E := Sample.answering
             (Fulfilled (mkResponse 200 (Fulfilled (Sample.completion (js "<div/>"))))) in
  fst (start E Sample.textState) = Done tt
  /\ generatedCode (finalState E Sample.textState) = str (js "<div/>")
  /\ loading (finalState E Sample.textState) = true
  /\ fst (start E Sample.imageState) = Done tt
  /\ loading (finalState E Sample.imageState) = false.
Proof. cbv zeta. repeat split; vm_compute; reflexivity. Qed.

(** C5, at the failing input: the service answers with fenced code.  The
    text branch stores the answer as it came, fences included; the image
    branch stores what the extraction makes of it. *)
Theorem C5_text_branch_stores_raw_completion :
  let E := Sample.answering
             (Fulfilled (mkResponse 200 (Fulfilled (Sample.completion Sample.fenced)))) in
  generatedCode (finalState E Sample.textState) = str Sample.fenced
  /\ cleanCode (str Sample.fenced) = Ok (js "<div/>")
  /\ generatedCode (finalState E Sample.textState) <> str (js "<div/>")
  /\ generatedCode (finalState E Sample.imageState) = str (js "<div/>").
Proof.
  cbv zeta. repeat split; try (vm_compute; reflexivity).
  vm_compute. discriminate.
Qed.

(** The text branch stores the first candidate's content unchanged, for
    every answer. *)
Lemma text_branch_raw (E : env) c r pv gc l resp data v :
  fetch E endpoint (textRequest E (c :: r)) = Fulfilled resp ->
  json_ resp = Fulfilled data ->
  choicesAndContent data = Ok v -> truthy v = true ->
  firstContent data = Ok v ->
  generatedCode (finalState E (mkState (c :: r) None pv gc l)) = v.
Proof.
  intros Hf Hj Hc Ht Hfc. mrun.
  rewrite Hf; mrun. rewrite Hj; mrun. rewrite Hc; mrun. rewrite Ht; mrun.
  rewrite Hfc; mrun. reflexivity.
Qed.

(** The image branch stores the extracted code. *)
Lemma image_branch_extracts (E : env) fj f pv gc l r resp data v :
  readAsDataURL E f = onload (RString r) ->
  fetch E endpoint (imageRequest E r) = Fulfilled resp ->
  ok resp = true -> json_ resp = Fulfilled data ->
  choicesAndContent data = Ok (Some (JStr v)) -> v <> [] ->
  firstContent data = Ok (Some (JStr v)) ->
  generatedCode (finalState E (mkState fj (Some f) pv gc l))
  = str (match fencedCode v with Some code => code | None => v end).
Proof.
  intros Hr Hf Hok Hj Hc Hv Hfc. mrun.
  rewrite Hr; mrun. rewrite Hf; mrun. rewrite Hok; mrun. rewrite Hj; mrun.
  rewrite Hc; mrun.
  replace (truthy (Some (JStr v))) with true by (destruct v; [congruence | reflexivity]).
  mrun. rewrite Hfc; mrun.
  rewrite cleanCode_scan. mrun. reflexivity.
Qed.

(* ------------------------------------------------------------------ *)
(** ** Answers without a usable result *)

Lemma missing_choices_falsy (fields : list (jsstring * json)) :
  lookup (js "choices") fields = None ->
  choicesAndContent (JObj fields) = Ok None.
Proof.
  intros H. unfold choicesAndContent, get, andThen.
  change (propName choices) with (js "choices"). now rewrite H.
Qed.

(** C6 as stated fails.  What is shown for a body without [choices]
    starts with [Error: ]; a body whose [choices] is an empty array, or
    whose first candidate has no [message], ends in the catch block, which
    shows the engine's own message. *)
Lemma C6_counterexample :
  let missing := Sample.answering (Fulfilled (mkResponse 200 (Fulfilled (JObj [])))) in
  let empty :=
    Sample.answering
      (Fulfilled (mkResponse 200 (Fulfilled (JObj [(js "choices", JArr [])])))) in
  let bare :=
    Sample.answering
      (Fulfilled (mkResponse 200 (Fulfilled (JObj [(js "choices", JArr [JObj []])])))) in
  generatedCode (finalState bare Sample.imageState)
    = str (js "Error: Cannot read properties of undefined (reading 'content')")
  /\
  generatedCode (finalState missing Sample.textState)
    = str (js "Error: Could not generate code. Please check your input.")
  /\ generatedCode (finalState missing Sample.imageState)
    = str (js "Error: Could not generate code. Please check your input.")
  /\ generatedCode (finalState missing Sample.imageState)
    <> str (js "Could not generate code. Please check your input.")
  /\ generatedCode (finalState empty Sample.imageState)
    = str (js "Error: Cannot read properties of undefined (reading 'message')")
  /\ generatedCode (finalState empty Sample.textState)
    = str (js "Error: Cannot read properties of undefined (reading 'message')").
Proof.
  cbv zeta. repeat split; try (vm_compute; reflexivity).
  vm_compute. discriminate.
Qed.

(** C6, amended: when the service answers with a 2xx status and a body in
    which [data.choices && data.choices[0].message.content] is falsy
    (no [choices], or a first candidate whose message has no content or an
    empty one), the conversion ends and shows exactly
    [Error: Could not generate code. Please check your input.] *)
Theorem C6_falsy_result_fixed_message
    (E : env) (s : state) (resp : response) (data : json) (v : value) :
  activeModality s <> NoInput ->
  (forall f, imageFile s = Some f -> exists r, readAsDataURL E f = onload (RString r)) ->
  (forall init, fetch E endpoint init = Fulfilled resp) ->
  ok resp = true ->
  json_ resp = Fulfilled data ->
  choicesAndContent data = Ok v ->
  truthy v = false ->
  fst (start E s) = Done tt
  /\ generatedCode (finalState E s)
     = str (js "Error: Could not generate code. Please check your input.").
Proof.
  intros Hm Hread Hfetch Hok Hj Hc Hv.
  destruct s as [fj [f|] pv gc l].
  - destruct (Hread f eq_refl) as [r Hr].
    mrun. rewrite Hr; mrun. rewrite Hfetch; mrun. rewrite Hok; mrun.
    rewrite Hj; mrun. rewrite Hc; mrun. rewrite Hv; mrun. split; reflexivity.
  - destruct fj as [|c fj]; [now elim Hm|].
    mrun. rewrite Hfetch; mrun. rewrite Hj; mrun. rewrite Hc; mrun.
    rewrite Hv; mrun. split; reflexivity.
Qed.

Lemma C6_falsy_result_fixed_message_witness :
  let E := Sample.answering (Fulfilled (mkResponse 200 (Fulfilled (JObj [])))) in
  choicesAndContent (JObj []) = Ok None
  /\ generatedCode (finalState E Sample.textState)
     = str (js "Error: Could not generate code. Please check your input.").
Proof.
  cbv zeta. split; [reflexivity|].
  apply (C6_falsy_result_fixed_message
           (Sample.answering (Fulfilled (mkResponse 200 (Fulfilled (JObj [])))))
           Sample.textState (mkResponse 200 (Fulfilled (JObj []))) (JObj []) None).
  - discriminate.
  - intros f H; discriminate H.
  - intros init; reflexivity.
  - reflexivity.
  - reflexivity.
  - reflexivity.
  - reflexivity.
Defined.

(* ------------------------------------------------------------------ *)
(** ** Answers with an error status *)

(** C7 as stated fails.  The text branch does not look at the status: the
    service's message is not shown.  In the image branch a body that does
    not parse shows the parser's message, which differs from body to body
    under one status, and a body without a message shows one fixed text
    under every status. *)
Lemma C7_counterexample :
  let denied :=
    mkResponse 401 (Fulfilled (Sample.serviceError (js "Incorrect API key provided"))) in
  let broken m := mkResponse 500 (Rejected (ErrorObj m)) in
  let bare st := mkResponse st (Fulfilled (JObj [])) in
  let shown r st := generatedCode (finalState (Sample.answering (Fulfilled r)) st) in
  ok denied = false
  /\ shown denied Sample.textState
     = str (js "Error: Could not generate code. Please check your input.")
  /\ shown (broken (js "Unexpected token <")) Sample.imageState
     = str (js "Error: Unexpected token <")
  /\ shown (broken (js "Unexpected end of JSON input")) Sample.imageState
     = str (js "Error: Unexpected end of JSON input")
  /\ shown (bare 401%N) Sample.imageState = str (js "Error: API request failed")
  /\ shown (bare 500%N) Sample.imageState = str (js "Error: API request failed").
Proof. cbv zeta. repeat split; vm_compute; reflexivity. Qed.

Lemma get_object (fields : list (jsstring * json)) (p : prop) :
  get (Some (JObj fields)) p = Ok (lookup (propName p) fields).
Proof. reflexivity. Qed.

Lemma getOpt_object (fields : list (jsstring * json)) (p : prop) :
  getOpt (Some (JObj fields)) p = Ok (lookup (propName p) fields).
Proof. reflexivity. Qed.

(** C7, amended: in the image branch, for every answer whose status is not
    2xx and whose body settles, the conversion ends with the busy flag
    cleared and shows [Error: ] followed by
    - the service's [error.message], when the body parses and holds one
      that is a non-empty string;
    - [API request failed], when the body parses to an object without
      [error];
    - the message of what [response.json()] threw, when the body does not
      parse.
    While the body does not arrive the conversion waits.  Nothing in the
    state tells these from a failure of the transport, which goes through
    the same catch block. *)
Theorem C7_image_branch_error_status
    (E : env) (fj : jsstring) (f : File) (pv : option jsstring) (gc : value)
    (l : bool) (r : jsstring) (resp : response) :
  readAsDataURL E f = onload (RString r) ->
  fetch E endpoint (imageRequest E r) = Fulfilled resp ->
  ok resp = false ->
  let s := mkState fj (Some f) pv gc l in
  (json_ resp <> Pending ->
   fst (start E s) = Done tt /\ loading (finalState E s) = false)
  /\ (json_ resp = Pending -> fst (start E s) = Suspended)
  /\ (forall fields efields c m,
        json_ resp = Fulfilled (JObj fields) ->
        lookup (propName error) fields = Some (JObj efields) ->
        lookup (propName message) efields = Some (JStr (c :: m)) ->
        generatedCode (finalState E s) = str (js "Error: " ++ c :: m))
  /\ (forall fields,
        json_ resp = Fulfilled (JObj fields) ->
        lookup (propName error) fields = None ->
        generatedCode (finalState E s) = str (js "Error: API request failed"))
  /\ (forall e,
        json_ resp = Rejected e ->
        generatedCode (finalState E s) = str (js "Error: " ++ errorText E e)).
Proof.
  intros Hr Hf Hok s; subst s.
  split; [|split; [|split; [|split]]].
  - intros Hp.
    mrun. rewrite Hr; mrun. rewrite Hf; mrun. rewrite Hok; mrun.
    destruct (json_ resp) as [data|e|] eqn:Hj; mrun; [| |now elim Hp];
      repeat (destruct_head; mrun); split; reflexivity.
  - intros Hj.
    mrun. rewrite Hr; mrun. rewrite Hf; mrun. rewrite Hok; mrun.
    rewrite Hj; mrun. reflexivity.
  - intros fields efields c m Hj He Hm.
    mrun. rewrite Hr; mrun. rewrite Hf; mrun. rewrite Hok; mrun.
    rewrite Hj; mrun. rewrite get_object, He; mrun.
    rewrite getOpt_object, Hm; mrun. reflexivity.
  - intros fields Hj He.
    mrun. rewrite Hr; mrun. rewrite Hf; mrun. rewrite Hok; mrun.
    rewrite Hj; mrun. rewrite get_object, He; mrun. reflexivity.
  - intros e Hj.
    mrun. rewrite Hr; mrun. rewrite Hf; mrun. rewrite Hok; mrun.
    rewrite Hj; mrun. reflexivity.
Qed.

Lemma C7_image_branch_error_status_witness :
  let resp := mkResponse 429 (Fulfilled (Sample.serviceError (js "Rate limit reached"))) in
  let E := Sample.answering (Fulfilled resp) in
  ok resp = false
  /\ generatedCode (finalState E Sample.imageState)
     = str (js "Error: Rate limit reached").
Proof.
  cbv zeta. split; [reflexivity|].
  refine (proj1 (proj2 (proj2
    (C7_image_branch_error_status
       (Sample.answering
          (Fulfilled (mkResponse 429 (Fulfilled (Sample.serviceError (js "Rate limit reached"))))))
       [] Sample.png (Some (js "blob:0")) (str []) false (dataURL Sample.png)
       (mkResponse 429 (Fulfilled (Sample.serviceError (js "Rate limit reached"))))
       eq_refl eq_refl eq_refl)))
    [(js "error", JObj [(js "message", JStr (js "Rate limit reached"))])]
    [(js "message", JStr (js "Rate limit reached"))]
    82%N (js "ate limit reached") eq_refl eq_refl eq_refl).
Defined.

(* ------------------------------------------------------------------ *)
(** ** The request of an image conversion *)

(** C8: a conversion started with an image file sends, once the file is
    read, one request to the completion endpoint.  Its model is [gpt-4o];
    its one user message holds the instruction and then one image part,
    whose reference is the string [readAsDataURL] left in [reader.result],
    the data URL of the file, at high detail; no other message holds an
    image part; its temperature is 0. *)
Theorem C8_image_request (E : env) (s : state) (f : File) (r : jsstring) :
  imageFile s = Some f ->
  readAsDataURL E f = onload (RString r) ->
  exists init,
    sent E s = [(endpoint, init)]
    /\ model (body init) = js "gpt-4o"
    /\ userMessages (body init)
       = [ mkMessage (js "user")
             (ContentParts
                [ TextPart (js "Convert this UI design into React JSX code with Tailwind CSS. Include all text content, styling, and layout exactly as shown. Make it responsive and use semantic HTML.");
                  ImageUrlPart r (js "high") ]) ]
    /\ imageRefs (body init) = [r]
    /\ temperature (body init) = 0%Q
    /\ max_tokens (body init) = 4000%N.
Proof.
  intros Hi Hr. destruct s as [fj im pv gc l]; cbn [imageFile] in Hi; subst im.
  exists (imageRequest E r).
  split; [|repeat split].
  mrun. rewrite Hr; mrun.
  repeat (destruct_head; mrun); reflexivity.
Qed.

(** When the read fails, the image branch sends nothing. *)
Lemma image_read_failure_sends_nothing (E : env) fj f pv gc l :
  (forall r, readAsDataURL E f <> onload (RString r)) ->
  sent E (mkState fj (Some f) pv gc l) = [].
Proof.
  intros Hr. mrun.
  destruct (readAsDataURL E f) as [[r| |]|] eqn:Hread; mrun;
    try reflexivity.
  now elim (Hr r).
Qed.

Lemma C8_image_request_witness :
  readAsDataURL (Sample.answering Pending) Sample.png
    = onload (RString (js "data:image/png;base64,iVBO"))
  /\ exists init,
       sent (Sample.answering Pending) Sample.imageState = [(endpoint, init)]
       /\ model (body init) = js "gpt-4o"
       /\ userMessages (body init)
          = [ mkMessage (js "user")
                (ContentParts
                   [ TextPart (js "Convert this UI design into React JSX code with Tailwind CSS. Include all text content, styling, and layout exactly as shown. Make it responsive and use semantic HTML.");
                     ImageUrlPart (js "data:image/png;base64,iVBO") (js "high") ]) ]
       /\ imageRefs (body init) = [js "data:image/png;base64,iVBO"]
       /\ temperature (body init) = 0%Q
       /\ max_tokens (body init) = 4000%N.
Proof.
  split; [reflexivity|].
  exact (C8_image_request (Sample.answering Pending) Sample.imageState Sample.png
           (js "data:image/png;base64,iVBO") eq_refl eq_refl).
Defined.

(* ================================================================== *)
(** * The input handlers *)
(* ================================================================== *)

Lemma freshURL_truthy (store : url_store) : truthyString (Some (freshURL store)) = true.
Proof. reflexivity. Qed.

Lemma takeImage_comp (f : File) (w : world) :
  comp (takeImage f w)
  = setFigmaJson [] (setImagePreview (Some (freshURL (urls w)))
                       (setImageFile (Some f) (comp w))).
Proof. reflexivity. Qed.

Lemma takeImage_urls (f : File) (w : world) :
  urls (takeImage f w) = urls w ++ [(freshURL (urls w), f)].
Proof. reflexivity. Qed.

Lemma takeImage_exclusive (f : File) (w : world) : exclusive (comp (takeImage f w)).
Proof. rewrite takeImage_comp. split; reflexivity. Qed.

(** A paste leaves the world alone or takes one image. *)
Lemma pasteItems_cases (items : list DataTransferItem) (w : world) :
  fst (pasteItems items w) = w
  \/ exists f, fst (pasteItems items w) = takeImage f w.
Proof.
  induction items as [|item rest IH]; cbn [pasteItems]; [now left|].
  destruct (indexOf (js "image") (itemType item)); [|exact IH].
  destruct (getAsFile item) as [f|]; [right; now exists f | now left].
Qed.

Lemma exclusive_no_preview (s : state) :
  exclusive s -> truthyString (imagePreview s) = false -> imageFile s = None.
Proof.
  unfold exclusive. destruct (imageFile s); [|reflexivity].
  intros [H _] H'. congruence.
Qed.

Lemma handle_exclusive (E : env) (ev : event) (w : world) :
  exclusive (comp w) -> enabled (comp w) ev = true ->
  exclusive (comp (handle E ev w)).
Proof.
  intros Hx Hen. destruct ev as [files|items|v| |]; cbn [handle].
  - destruct files as [[|f rest]|]; cbn [handleFileChange]; auto.
    apply takeImage_exclusive.
  - destruct items as [l|]; cbn [handlePaste fst]; auto.
    destruct (pasteItems_cases l w) as [-> | [f ->]]; auto.
    apply takeImage_exclusive.
  - cbn [enabled] in Hen. apply negb_true_iff in Hen.
    pose proof (exclusive_no_preview _ Hx Hen) as Hi.
    unfold exclusive in *. cbn [handleTextChange comp].
    destruct (comp w) as [fj im pv gc l]. cbn in *. subst im. exact Hx.
  - cbn [handleClearClick comp]. unfold exclusive.
    destruct (comp w); reflexivity.
  - cbn [comp].
    destruct (convert_sameInputs E (comp w) (trace w)) as (Hf & Hi & Hp).
    unfold exclusive in *. rewrite Hi, Hp, Hf. exact Hx.
Qed.

Lemma reachable_exclusive (E : env) (w : world) : reachable E w -> exclusive (comp w).
Proof.
  induction 1 as [|w ev Hr IH Hen].
  - reflexivity.
  - now apply handle_exclusive.
Qed.

(** C1 as stated fails: the textarea's handler writes the text and leaves
    the image where it is, so after a file and then a text the conversion
    still acts on the image. *)
Lemma C1_text_after_file_keeps_image :
  let w := handleTextChange (js "x") (handleFileChange (Some [Sample.png]) initialWorld) in
  imageFile (comp w) = Some Sample.png
  /\ figmaJson (comp w) = js "x"
  /\ activeModality (comp w) = Image Sample.png
  /\ activeModality (comp w) <> StructuredText (js "x").
Proof. cbv zeta. repeat split. discriminate. Qed.

(** C1, amended: an image, by file or by paste, clears the text.  The
    text handler alone does not clear the image; the textarea is rendered
    only while no preview is shown.  So in every world the user can reach
    an image and a text are never both set, a chosen file makes the image
    the active input, and a text that can be typed becomes the active
    input with no image left. *)
Theorem C1_exclusive_when_reachable (E : env) (w : world) :
  reachable E w ->
  (imageFile (comp w) <> None -> figmaJson (comp w) = [])
  /\ (forall f rest,
        activeModality (comp (handle E (FileChange (Some (f :: rest))) w)) = Image f
        /\ figmaJson (comp (handle E (FileChange (Some (f :: rest))) w)) = [])
  /\ (forall c x,
        enabled (comp w) (TextChange (c :: x)) = true ->
        activeModality (comp (handle E (TextChange (c :: x)) w))
          = StructuredText (c :: x)
        /\ imageFile (comp (handle E (TextChange (c :: x)) w)) = None).
Proof.
  intros Hr. pose proof (reachable_exclusive E w Hr) as Hx.
  split; [|split].
  - unfold exclusive in Hx. destruct (imageFile (comp w)); [intros _; apply Hx | congruence].
  - intros f rest. cbn [handle handleFileChange]. rewrite takeImage_comp.
    split; reflexivity.
  - intros c x Hen. cbn [enabled] in Hen. apply negb_true_iff in Hen.
    pose proof (exclusive_no_preview _ Hx Hen) as Hi.
    cbn [handle handleTextChange comp]. unfold activeModality.
    destruct (comp w) as [fj im pv gc l]. cbn in *. subst im. split; reflexivity.
Qed.

Lemma C1_exclusive_when_reachable_witness :
  let E := Sample.answering Pending in
  let w := handle E ClearClick (handle E (FileChange (Some [Sample.png])) initialWorld) in
  reachable E w
  /\ enabled (comp w) (TextChange (js "x")) = true
  /\ activeModality (comp (handle E (TextChange (js "x")) w)) = StructuredText (js "x")
  /\ imageFile (comp (handle E (TextChange (js "x")) w)) = None.
Proof.
  cbv zeta.
  assert (Hr : reachable (Sample.answering Pending)
                 (handle (Sample.answering Pending) ClearClick
                    (handle (Sample.answering Pending)
                       (FileChange (Some [Sample.png])) initialWorld))).
  { apply reach_step; [apply reach_step; [apply reach_init | reflexivity] | reflexivity]. }
  split; [exact Hr|]. split; [reflexivity|].
  exact (proj2 (proj2 (C1_exclusive_when_reachable _ _ Hr)) 120%N [] eq_refl).
Defined.

(* ------------------------------------------------------------------ *)
(** ** The preview's object URL *)

(** C9 as stated fails: nothing revokes an object URL.  After a second
    file the first preview's URL is still registered though no cell holds
    it, and after the clear button both are. *)
Lemma C9_replaced_preview_stays_registered :
  let w1 := handleFileChange (Some [Sample.png]) initialWorld in
  let w2 := handleFileChange (Some [Sample.jpg]) w1 in
  let w3 := handleClearClick w2 in
  imagePreview (comp w1) = Some (js "blob:0")
  /\ imagePreview (comp w2) = Some (js "blob:1")
  /\ live (js "blob:0") (urls w2) = true
  /\ imagePreview (comp w3) = None
  /\ imageFile (comp w3) = None
  /\ live (js "blob:0") (urls w3) = true
  /\ live (js "blob:1") (urls w3) = true.
Proof. cbv zeta. repeat split. Qed.

(** C9, amended: no handler and no conversion removes an entry from the
    registry of object URLs; an event can only add to it.  The clear
    button sets the preview and the file to [null], keeps the text, and
    leaves the registry as it is. *)
Theorem C9_previews_are_never_revoked (E : env) (ev : event) (w : world) :
  (exists added, urls (handle E ev w) = urls w ++ added)
  /\ imagePreview (comp (handleClearClick w)) = None
  /\ imageFile (comp (handleClearClick w)) = None
  /\ figmaJson (comp (handleClearClick w)) = figmaJson (comp w)
  /\ urls (handleClearClick w) = urls w.
Proof.
  split; [|repeat split].
  destruct ev as [files|items|v| |]; cbn [handle].
  - destruct files as [[|f rest]|]; cbn [handleFileChange].
    + exists []. now rewrite app_nil_r.
    + exists [(freshURL (urls w), f)]. apply takeImage_urls.
    + exists []. now rewrite app_nil_r.
  - destruct items as [l|]; cbn [handlePaste fst].
    + destruct (pasteItems_cases l w) as [-> | [f ->]].
      * exists []. now rewrite app_nil_r.
      * exists [(freshURL (urls w), f)]. apply takeImage_urls.
    + exists []. now rewrite app_nil_r.
  - exists []. cbn. now rewrite app_nil_r.
  - exists []. cbn. now rewrite app_nil_r.
  - exists []. cbn [urls]. now rewrite app_nil_r.
Qed.

(* ------------------------------------------------------------------ *)
(** ** A pasted image without a file *)

(** C10: when the first clipboard entry whose type contains [image] gives
    no file, the paste handler has called [preventDefault] and has changed
    nothing: the component state, the registry of object URLs and the
    effects are as before. *)
Theorem C10_paste_without_file
    (before after : list DataTransferItem) (item : DataTransferItem) (w : world) :
  Forall (fun i => indexOf (js "image") (itemType i) = None) before ->
  indexOf (js "image") (itemType item) <> None ->
  getAsFile item = None ->
  handlePaste (Some (before ++ item :: after)) w = (w, true).
Proof.
  intros Hb Hi Hf. cbn [handlePaste].
  induction Hb as [|i before Hn _ IH]; cbn [app pasteItems].
  - destruct (indexOf (js "image") (itemType item)); [|congruence].
    now rewrite Hf.
  - rewrite Hn. exact IH.
Qed.

Lemma C10_paste_without_file_witness :
  let text := mkItem (js "text/plain") None in
  let image := mkItem (js "image/png") None in
  let later := mkItem (js "image/jpeg") (Some Sample.jpg) in
  let w := handleTextChange (js "{}") initialWorld in
  indexOf (js "image") (itemType image) = Some 0
  /\ handlePaste (Some [text; image; later]) w = (w, true).
Proof.
  cbv zeta. split; [reflexivity|].
  apply (C10_paste_without_file
           [mkItem (js "text/plain") None]
           [mkItem (js "image/jpeg") (Some Sample.jpg)]
           (mkItem (js "image/png") None)
           (handleTextChange (js "{}") initialWorld)).
  - repeat constructor.
  - discriminate.
  - reflexivity.
Defined.

(* ================================================================== *)
(** * Further properties of the conversion *)
(* ================================================================== *)

Import View.

(** X1: whatever the file reader and the network do, the promise of
    [convertFigmaToJSX] is never rejected: every failure is caught inside. *)
Theorem X1_conversion_never_rejects (E : env) (s : state) (e : thrown) :
  fst (start E s) <> Raised e.
Proof.
  destruct s as [fj [f|] pv gc l]; [|destruct fj];
    all_paths; discriminate.
Qed.

(** X2: a conversion that does not settle waits for the network: one
    request has left, and either [fetch] is pending or it is fulfilled and
    the body of the response is; the state is the one the first two
    setters made, busy with an empty result. *)
Theorem X2_unsettled_run_waits_for_fetch (E : env) (s : state) :
  fst (start E s) = Suspended ->
  exists init,
    sent E s = [(endpoint, init)]
    /\ (fetch E endpoint init = Pending
        \/ exists resp, fetch E endpoint init = Fulfilled resp /\ json_ resp = Pending)
    /\ loading (finalState E s) = true
    /\ generatedCode (finalState E s) = str [].
Proof.
  destruct s as [fj [f|] pv gc l]; [|destruct fj];
    all_paths; intros H; try discriminate H;
    eexists;
    (split; [reflexivity
            | split; [first [left; eassumption
                            | right; eexists; split; eassumption]
                     | split; reflexivity]]).
Qed.

Lemma X2_unsettled_run_waits_for_fetch_witness :
  let stalled := Sample.answering (Fulfilled (mkResponse 200 Pending)) in
  fst (start stalled Sample.textState) = Suspended
  /\ exists init,
       sent stalled Sample.textState = [(endpoint, init)]
       /\ (fetch stalled endpoint init = Pending
           \/ exists resp, fetch stalled endpoint init = Fulfilled resp
                           /\ json_ resp = Pending)
       /\ loading (finalState stalled Sample.textState) = true
       /\ generatedCode (finalState stalled Sample.textState) = str [].
Proof.
  cbv zeta. split; [reflexivity|].
  exact (X2_unsettled_run_waits_for_fetch
           (Sample.answering (Fulfilled (mkResponse 200 Pending)))
           Sample.textState eq_refl).
Defined.

(** X3: the conversion writes [generatedCode] and [loading] and nothing
    else: the text, the image file and the preview are as before. *)
Theorem X3_conversion_keeps_inputs (E : env) (s : state) :
  figmaJson (finalState E s) = figmaJson s
  /\ imageFile (finalState E s) = imageFile s
  /\ imagePreview (finalState E s) = imagePreview s.
Proof. exact (convert_sameInputs E s []). Qed.

(** X4: a conversion sends at most one request, and whatever it sends is a
    POST to the completion endpoint with the JSON content type and the
    bearer header; without a key the header reads [Bearer undefined] and
    the request leaves all the same. *)
Theorem X4_requests_are_authorised_posts (E : env) (s : state) :
  length (sent E s) <= 1
  /\ forall u init,
       In (u, init) (sent E s) ->
       u = endpoint
       /\ method init = js "POST"
       /\ headers init =
          [ (js "Content-Type", js "application/json");
            (js "Authorization",
             js "Bearer " ++ match API_KEY E with
                             | Some k => k
                             | None => js "undefined"
                             end) ].
Proof.
  split; [apply sent_at_most_one|].
  intros u init.
  destruct s as [fj [f|] pv gc l]; [|destruct fj];
    all_paths; cbn [requests flat_map app In];
    intros H; repeat (destruct H as [H|H]); try contradiction;
    injection H as <- <-; repeat split;
    match goal with
    | Hk : API_KEY E = _ |- _ =>
        unfold imageRequest, textRequest, requestHeaders; cbn [headers];
        rewrite Hk; reflexivity
    end.
Qed.

Lemma X4_requests_are_authorised_posts_witness :
  let E := mkEnv None (fun f => onload (RString (dataURL f)))
                 (fun _ _ => Pending) Sample.v8TypeError Sample.printNumber in
  In (endpoint, textRequest E (js "{}")) (sent E Sample.textState)
  /\ headers (textRequest E (js "{}")) =
     [ (js "Content-Type", js "application/json");
       (js "Authorization", js "Bearer undefined") ].
Proof.
  cbv zeta. split; [left; reflexivity|].
  apply (proj2 (X4_requests_are_authorised_posts
                  (mkEnv None (fun f => onload (RString (dataURL f)))
                     (fun _ _ => Pending) Sample.v8TypeError Sample.printNumber)
                  Sample.textState) endpoint).
  left; reflexivity.
Defined.

(** X5: a conversion of a text without an image sends exactly one request,
    whatever comes back: model [gpt-4], a single user message whose content
    is the instruction followed by the text as it was typed, no image part,
    temperature 0.1 and at most 4096 tokens. *)
Theorem X5_text_request (E : env) (c : N) (r : jsstring)
    (pv : option jsstring) (gc : value) (l : bool) :
  exists init,
    sent E (mkState (c :: r) None pv gc l) = [(endpoint, init)]
    /\ model (body init) = js "gpt-4"
    /\ messages (body init) =
       [ mkMessage (js "user")
           (ContentString
              (js "Create a React component with Tailwind CSS based on this Figma JSON. Return ONLY the JSX code without any explanation."
               ++ [10; 10]%N ++ js "Figma JSON:" ++ [10]%N ++ c :: r)) ]
    /\ imageRefs (body init) = []
    /\ temperature (body init) = (1 # 10)%Q
    /\ max_tokens (body init) = 4096%N.
Proof.
  exists (textRequest E (c :: r)).
  split; [|repeat split].
  all_paths; reflexivity.
Qed.

(** X6: when an image file is set, the conversion does not look at the
    text: two states that differ only in the text run the same effects and
    end with the same result. *)
Theorem X6_image_takes_precedence (E : env) (f : File) (fj fj' : jsstring)
    (pv : option jsstring) (gc : value) (l : bool) :
  fst (start E (mkState fj (Some f) pv gc l)) = fst (start E (mkState fj' (Some f) pv gc l))
  /\ effects (snd (start E (mkState fj (Some f) pv gc l)))
     = effects (snd (start E (mkState fj' (Some f) pv gc l)))
  /\ generatedCode (finalState E (mkState fj (Some f) pv gc l))
     = generatedCode (finalState E (mkState fj' (Some f) pv gc l))
  /\ loading (finalState E (mkState fj (Some f) pv gc l))
     = loading (finalState E (mkState fj' (Some f) pv gc l)).
Proof. all_paths; repeat split. Qed.

(** X7: when [fetch] is rejected, the conversion ends and shows [Error: ]
    followed by the message of what was thrown ([Unknown error] when it is
    not an [Error]), in the image branch and in the text branch alike; the
    one request was sent. *)
Theorem X7_transport_failure_is_shown (E : env) (s : state) (e : thrown) :
  activeModality s <> NoInput ->
  (forall f, imageFile s = Some f -> exists r, readAsDataURL E f = onload (RString r)) ->
  (forall u init, fetch E u init = Rejected e) ->
  fst (start E s) = Done tt
  /\ generatedCode (finalState E s)
     = str (js "Error: " ++ match e with
                            | ErrorObj m => m
                            | TypeErrorObj t => typeErrorMessage E t
                            | NotAnError => js "Unknown error"
                            end)
  /\ length (sent E s) = 1.
Proof.
  intros Hm Hread Hfetch.
  destruct s as [fj [f|] pv gc l].
  - destruct (Hread f eq_refl) as [r Hr].
    mrun. rewrite Hr; mrun. rewrite Hfetch; mrun. repeat split.
  - destruct fj as [|c fj]; [now elim Hm|].
    mrun. rewrite Hfetch; mrun. repeat split.
Qed.

Lemma X7_transport_failure_is_shown_witness :
  let E := Sample.answering (Rejected (ErrorObj (js "Failed to fetch"))) in
  generatedCode (finalState E Sample.imageState) = str (js "Error: Failed to fetch")
  /\ generatedCode (finalState E Sample.textState) = str (js "Error: Failed to fetch").
Proof.
  cbv zeta. split.
  - refine (proj1 (proj2 (X7_transport_failure_is_shown
      (Sample.answering (Rejected (ErrorObj (js "Failed to fetch"))))
      Sample.imageState (ErrorObj (js "Failed to fetch")) _ _ _))).
    + discriminate.
    + intros f [= <-]. eexists; reflexivity.
    + reflexivity.
  - refine (proj1 (proj2 (X7_transport_failure_is_shown
      (Sample.answering (Rejected (ErrorObj (js "Failed to fetch"))))
      Sample.textState (ErrorObj (js "Failed to fetch")) _ _ _))).
    + discriminate.
    + intros f H; discriminate H.
    + reflexivity.
Defined.

(** X8: when the image cannot be read as a string, the conversion ends
    without sending anything and with the busy flag cleared; it shows
    [Error: Unknown error] after the reader's [error] event and
    [Error: Failed to convert file to base64] after a [load] whose result
    is not a string. *)
Theorem X8_unreadable_image_sends_nothing (E : env) (fj : jsstring) (f : File)
    (pv : option jsstring) (gc : value) (l : bool) :
  (forall r, readAsDataURL E f <> onload (RString r)) ->
  let s := mkState fj (Some f) pv gc l in
  fst (start E s) = Done tt
  /\ sent E s = []
  /\ loading (finalState E s) = false
  /\ generatedCode (finalState E s)
     = str (js "Error: "
            ++ match readAsDataURL E f with
               | onerror => js "Unknown error"
               | onload _ => js "Failed to convert file to base64"
               end).
Proof.
  intros Hr s; subst s. mrun.
  destruct (readAsDataURL E f) as [[r| |]|] eqn:Hread; mrun;
    try (repeat split; fail).
  now elim (Hr r).
Qed.

Lemma X8_unreadable_image_sends_nothing_witness :
  let E := mkEnv (Some (js "sk-test")) (fun _ => onerror)
                 (fun _ _ => Pending) Sample.v8TypeError Sample.printNumber in
  sent E Sample.imageState = []
  /\ generatedCode (finalState E Sample.imageState) = str (js "Error: Unknown error").
Proof.
  cbv zeta.
  pose proof (X8_unreadable_image_sends_nothing
                (mkEnv (Some (js "sk-test")) (fun _ => onerror)
                   (fun _ _ => Pending) Sample.v8TypeError Sample.printNumber)
                [] Sample.png (Some (js "blob:0")) (str []) false) as H.
  cbv zeta in H.
  assert (Hr : forall r : jsstring, @onerror <> onload (RString r)) by (intros r; discriminate).
  specialize (H Hr). destruct H as (_ & Hs & _ & Hg). split; [exact Hs | exact Hg].
Defined.

Lemma get_first (x : json) (rest : list json) :
  get (Some (JArr (x :: rest))) idx0 = Ok (Some x).
Proof. reflexivity. Qed.

(** X9: when the image is read and the service answers 2xx with a body
    whose first candidate holds a non-empty string, the conversion reads,
    sends and logs in this order, ends with the busy flag cleared and shows
    what the extraction makes of that string; the other candidates are
    not looked at. *)
Theorem X9_image_success (E : env) (fj : jsstring) (f : File)
    (pv : option jsstring) (gc : value) (l : bool) (r : jsstring)
    (resp : response) (fields cand msg : list (jsstring * json))
    (others : list json) (c : N) (t : jsstring) :
  readAsDataURL E f = onload (RString r) ->
  fetch E endpoint (imageRequest E r) = Fulfilled resp ->
  ok resp = true ->
  json_ resp = Fulfilled (JObj fields) ->
  lookup (js "choices") fields = Some (JArr (JObj cand :: others)) ->
  lookup (js "message") cand = Some (JObj msg) ->
  lookup (js "content") msg = Some (JStr (c :: t)) ->
  let s := mkState fj (Some f) pv gc l in
  fst (start E s) = Done tt
  /\ effects (snd (start E s)) = imageRunEffects E f r (JObj fields)
  /\ loading (finalState E s) = false
  /\ generatedCode (finalState E s)
     = str (match fencedCode (c :: t) with Some code => code | None => c :: t end).
Proof.
  intros Hr Hf Hok Hj Hch Hmsg Hct s; subst s.
  assert (Hfc : firstContent (JObj fields) = Ok (Some (JStr (c :: t)))).
  { unfold firstContent. rewrite get_object.
    change (propName choices) with (js "choices"). rewrite Hch. cbn [andThen].
    rewrite get_first. cbn [andThen]. rewrite get_object.
    change (propName message) with (js "message"). rewrite Hmsg. cbn [andThen].
    rewrite get_object. change (propName content) with (js "content").
    exact (f_equal Ok Hct). }
  assert (Hcc : choicesAndContent (JObj fields) = Ok (Some (JStr (c :: t)))).
  { unfold choicesAndContent. rewrite get_object.
    change (propName choices) with (js "choices"). rewrite Hch.
    cbn [andThen truthy]. exact Hfc. }
  mrun. rewrite Hr; mrun. rewrite Hf; mrun. rewrite Hok; mrun.
  rewrite Hj; mrun. rewrite Hcc; mrun. cbn [truthy]; mrun.
  rewrite Hfc; mrun. rewrite cleanCode_scan; mrun. repeat split.
Qed.

Lemma X9_image_success_witness :
  let E := Sample.answering
             (Fulfilled (mkResponse 200 (Fulfilled (Sample.completion Sample.fenced)))) in
  generatedCode (finalState E Sample.imageState) = str (js "<div/>")
  /\ loading (finalState E Sample.imageState) = false.
Proof.
  cbv zeta.
  pose proof (X9_image_success
    (Sample.answering (Fulfilled (mkResponse 200 (Fulfilled (Sample.completion Sample.fenced)))))
    [] Sample.png (Some (js "blob:0")) (str []) false (dataURL Sample.png)
    (mkResponse 200 (Fulfilled (Sample.completion Sample.fenced)))
    [ (js "choices",
       JArr [ JObj [ (js "message", JObj [ (js "content", JStr Sample.fenced) ]) ] ]) ]
    [ (js "message", JObj [ (js "content", JStr Sample.fenced) ]) ]
    [ (js "content", JStr Sample.fenced) ]
    [] 96%N (tl Sample.fenced)
    eq_refl eq_refl eq_refl eq_refl eq_refl eq_refl eq_refl) as H.
  cbv zeta in H. destruct H as (_ & _ & Hl & Hg).
  split; [exact Hg | exact Hl].
Defined.

(* ================================================================== *)
(** * Further properties of the code extraction *)
(* ================================================================== *)

Lemma trimStart_app_nonws (a : jsstring) (c : N) :
  isWhiteSpace c = false -> trimStart (a ++ [c]) = trimStart a ++ [c].
Proof.
  intros Hc. induction a as [|x a IH]; cbn [app trimStart].
  - now rewrite Hc.
  - destruct (isWhiteSpace x); [exact IH | reflexivity].
Qed.

Lemma trimEnd_cons_nonws (c : N) (y : jsstring) :
  isWhiteSpace c = false -> trimEnd (c :: y) = c :: trimEnd y.
Proof.
  intros Hc. unfold trimEnd. cbn [rev].
  rewrite (trimStart_app_nonws _ _ Hc), rev_unit. reflexivity.
Qed.

Lemma trimEnd_app_ws (x : jsstring) (w : N) :
  isWhiteSpace w = true -> trimEnd (x ++ [w]) = trimEnd x.
Proof.
  intros Hw. unfold trimEnd. rewrite rev_unit. cbn [trimStart].
  now rewrite Hw.
Qed.

Lemma trim_cons_ws (w : N) (x : jsstring) :
  isWhiteSpace w = true -> trim (w :: x) = trim x.
Proof. intros Hw. unfold trim. cbn [trimStart]. now rewrite Hw. Qed.

Lemma trim_app_ws (x : jsstring) (w : N) :
  isWhiteSpace w = true -> trim (x ++ [w]) = trim x.
Proof.
  intros Hw. induction x as [|c x IH].
  - cbn [app]. rewrite (trim_cons_ws _ _ Hw). reflexivity.
  - destruct (isWhiteSpace c) eqn:Hc.
    + cbn [app]. rewrite !(trim_cons_ws _ _ Hc). exact IH.
    + unfold trim. cbn [app trimStart]. rewrite Hc.
      change (c :: x ++ [w]) with ((c :: x) ++ [w]).
      apply trimEnd_app_ws, Hw.
Qed.

Lemma trimStart_head (x : jsstring) (c : N) (y : jsstring) :
  trimStart x = c :: y -> isWhiteSpace c = false.
Proof.
  induction x as [|d x IH]; cbn [trimStart]; [discriminate|].
  destruct (isWhiteSpace d) eqn:Hd; [exact IH|].
  intros [= <- _]. exact Hd.
Qed.

Lemma trimStart_trim (x : jsstring) : trimStart (trim x) = trim x.
Proof.
  unfold trim. destruct (trimStart x) as [|c y] eqn:Hx; [reflexivity|].
  pose proof (trimStart_head _ _ _ Hx) as Hc.
  rewrite (trimEnd_cons_nonws _ _ Hc). cbn [trimStart]. now rewrite Hc.
Qed.

Lemma trimEnd_idem (y : jsstring) : trimEnd (trimEnd y) = trimEnd y.
Proof. unfold trimEnd. now rewrite rev_involutive, trimStart_idem. Qed.

Lemma trim_idem (x : jsstring) : trim (trim x) = trim x.
Proof.
  unfold trim at 1. rewrite trimStart_trim. unfold trim. apply trimEnd_idem.
Qed.

Lemma splitOn_at_fence (pre y : jsstring) :
  Forall (fun c => c <> 96%N) pre ->
  splitOn fence (pre ++ fence ++ y) = Some (pre, y).
Proof.
  intros Hpre. rewrite (splitOn_after_tag pre _ Hpre).
  replace (splitOn fence (fence ++ y)) with (Some (@nil N, y)).
  - now rewrite app_nil_r.
  - destruct y; reflexivity.
Qed.

(** X10: a block that opens with a fence, nothing or [jsx] or [tsx], and a
    line break, and closes with a line break and a fence, gives back its
    code trimmed, whatever prose stands before and behind, as long as
    neither the prose before nor the code holds a backtick. *)
Theorem X10_fenced_block_gives_its_code (before tag code behind : jsstring) :
  Forall (fun c => c <> 96%N) before ->
  Forall (fun c => c <> 96%N) code ->
  tag = [] \/ tag = js "jsx" \/ tag = js "tsx" ->
  cleanCode (Some (JStr (before ++ fence ++ tag ++ [10]%N ++ code ++ [10]%N
                         ++ fence ++ behind)))
  = Ok (trim code).
Proof.
  intros Hb Hc Ht. rewrite cleanCode_scan. unfold fencedCode.
  rewrite (splitOn_at_fence before _ Hb).
  replace (tag ++ [10]%N ++ code ++ [10]%N ++ fence ++ behind)
    with ((tag ++ [10]%N ++ code ++ [10]%N) ++ fence ++ behind)
    by (now rewrite <- !app_assoc).
  rewrite splitOn_at_fence.
  - f_equal.
    assert (Hs : stripTag (tag ++ [10]%N ++ code ++ [10]%N)
                 = [10]%N ++ code ++ [10]%N).
    { destruct Ht as [-> | Ht]; [reflexivity|].
      apply stripTag_app_tag. exact Ht. }
    rewrite Hs. cbn [app].
    rewrite (trim_cons_ws 10%N _ eq_refl).
    apply (trim_app_ws code 10%N eq_refl).
  - apply Forall_app. split.
    + destruct Ht as [-> | Ht]; [constructor | now apply tag_no_backtick].
    + constructor; [discriminate|].
      apply Forall_app. split; [exact Hc|]. constructor; [discriminate | constructor].
Qed.

Lemma X10_fenced_block_gives_its_code_witness :
  cleanCode (Some (JStr (js "Here you go: " ++ fence ++ js "tsx" ++ [10]%N
                         ++ js "  <p>hi</p> " ++ [10]%N ++ fence ++ js " Enjoy!")))
  = Ok (js "<p>hi</p>").
Proof.
  apply (X10_fenced_block_gives_its_code
           (js "Here you go: ") (js "tsx") (js "  <p>hi</p> ") (js " Enjoy!")).
  - repeat constructor; discriminate.
  - repeat constructor; discriminate.
  - right; right; reflexivity.
Defined.

Lemma no_occurrence_inside (p l m r : jsstring) :
  splitOn p (l ++ m ++ r) = None -> splitOn p m = None.
Proof.
  rewrite !splitOn_None_iff. intros H b a ->.
  apply (H (l ++ b) (a ++ r)). now rewrite <- !app_assoc.
Qed.

Lemma splitOn_body_clean (p y body post : jsstring) :
  p <> [] -> splitOn p y = Some (body, post) -> splitOn p body = None.
Proof.
  intros Hp Hs. apply splitOn_None_iff. intros b a Hb.
  pose proof (splitOn_Some _ _ _ _ Hs) as Hy.
  assert (Hle : length body <= length b).
  { apply (splitOn_first p y body post b (a ++ p ++ post) Hs).
    rewrite Hy, Hb. now rewrite <- !app_assoc. }
  rewrite Hb, !length_app in Hle.
  destruct p; [congruence | cbn in Hle; lia].
Qed.

Lemma trimStart_suffix (x : jsstring) : exists l, x = l ++ trimStart x.
Proof.
  induction x as [|c x [l IH]]; [now exists []|].
  cbn [trimStart]. destruct (isWhiteSpace c).
  - exists (c :: l). cbn. now f_equal.
  - now exists [].
Qed.

Lemma trimEnd_prefix (x : jsstring) : exists r, x = trimEnd x ++ r.
Proof.
  destruct (trimStart_suffix (rev x)) as [l Hl].
  exists (rev l). unfold trimEnd.
  rewrite <- rev_app_distr, <- Hl. symmetry. apply rev_involutive.
Qed.

Lemma trim_inside (x : jsstring) : exists l r, x = l ++ trim x ++ r.
Proof.
  destruct (trimStart_suffix x) as [l Hl].
  destruct (trimEnd_prefix (trimStart x)) as [r Hr].
  exists l, r. unfold trim. now rewrite <- Hr.
Qed.

Lemma stripTag_suffix (y : jsstring) : exists l, y = l ++ stripTag y.
Proof.
  unfold stripTag.
  destruct (stripPrefix (js "jsx") y) as [y'|] eqn:Hj.
  - exists (js "jsx"). now apply stripPrefix_Some.
  - destruct (stripPrefix (js "tsx") y) as [y'|] eqn:Ht.
    + exists (js "tsx"). now apply stripPrefix_Some.
    + now exists [].
Qed.

(** X11: whenever the extraction takes the code out of a fenced block,
    what it returns has no white space at either end and holds no fence. *)
Theorem X11_extracted_code_is_clean (s code : jsstring) :
  fencedCode s = Some code ->
  cleanCode (Some (JStr s)) = Ok code
  /\ trim code = code
  /\ splitOn fence code = None.
Proof.
  intros Hf. split; [now rewrite cleanCode_scan, Hf|].
  unfold fencedCode in Hf.
  destruct (splitOn fence s) as [[pre y]|]; [|discriminate].
  destruct (splitOn fence y) as [[body post]|] eqn:Hy; [|discriminate].
  injection Hf as <-. split; [apply trim_idem|].
  assert (Hbody : splitOn fence body = None).
  { apply (splitOn_body_clean fence y body post); [discriminate | exact Hy]. }
  destruct (stripTag_suffix body) as [l1 H1].
  destruct (trim_inside (stripTag body)) as [l2 [r2 H2]].
  apply (no_occurrence_inside fence (l1 ++ l2) _ r2).
  rewrite <- app_assoc, <- H2, <- H1. exact Hbody.
Qed.

Lemma X11_extracted_code_is_clean_witness :
  fencedCode Sample.fenced = Some (js "<div/>")
  /\ cleanCode (Some (JStr Sample.fenced)) = Ok (js "<div/>")
  /\ trim (js "<div/>") = js "<div/>"
  /\ splitOn fence (js "<div/>") = None.
Proof.
  split; [reflexivity|].
  exact (X11_extracted_code_is_clean Sample.fenced (js "<div/>") eq_refl).
Defined.

(* ================================================================== *)
(** * Further properties of the input handlers *)
(* ================================================================== *)

(** X12: a paste acts on the first entry whose type contains [image].
    When that entry gives a file, the default is prevented, the file
    becomes the image, its fresh object URL becomes the preview and is
    registered for it, the text is cleared, and the entries behind it are
    not looked at. *)
Theorem X12_paste_takes_first_image
    (before after : list DataTransferItem) (item : DataTransferItem)
    (f : File) (w : world) :
  Forall (fun i => indexOf (js "image") (itemType i) = None) before ->
  indexOf (js "image") (itemType item) <> None ->
  getAsFile item = Some f ->
  let r := handlePaste (Some (before ++ item :: after)) w in
  snd r = true
  /\ imageFile (comp (fst r)) = Some f
  /\ imagePreview (comp (fst r)) = Some (freshURL (urls w))
  /\ figmaJson (comp (fst r)) = []
  /\ urls (fst r) = urls w ++ [(freshURL (urls w), f)]
  /\ generatedCode (comp (fst r)) = generatedCode (comp w)
  /\ loading (comp (fst r)) = loading (comp w).
Proof.
  intros Hb Hi Hf r; subst r.
  assert (H : handlePaste (Some (before ++ item :: after)) w = (takeImage f w, true)).
  { cbn [handlePaste].
    induction Hb as [|i before Hn _ IH]; cbn [app pasteItems].
    - destruct (indexOf (js "image") (itemType item)); [|congruence].
      now rewrite Hf.
    - rewrite Hn. exact IH. }
  rewrite H. repeat split.
Qed.

Lemma X12_paste_takes_first_image_witness :
  let text := mkItem (js "text/html") None in
  let first := mkItem (js "image/png") (Some Sample.png) in
  let second := mkItem (js "image/jpeg") (Some Sample.jpg) in
  let r := handlePaste (Some [text; first; second]) initialWorld in
  snd r = true /\ imageFile (comp (fst r)) = Some Sample.png.
Proof.
  cbv zeta.
  pose proof (X12_paste_takes_first_image
                [mkItem (js "text/html") None]
                [mkItem (js "image/jpeg") (Some Sample.jpg)]
                (mkItem (js "image/png") (Some Sample.png))
                Sample.png initialWorld) as H.
  cbv zeta in H.
  assert (H1 : Forall (fun i => indexOf (js "image") (itemType i) = None)
                 [mkItem (js "text/html") None]) by (repeat constructor).
  assert (H2 : indexOf (js "image") (itemType (mkItem (js "image/png") (Some Sample.png)))
               <> None) by discriminate.
  destruct (H H1 H2 eq_refl) as (Hs & Hi & _). split; [exact Hs | exact Hi].
Defined.

(** X13: a paste without any entry whose type contains [image], or
    without clipboard data, changes nothing and leaves the default to the
    browser. *)
Theorem X13_paste_without_image_is_left_alone
    (items : list DataTransferItem) (w : world) :
  Forall (fun i => indexOf (js "image") (itemType i) = None) items ->
  handlePaste (Some items) w = (w, false)
  /\ handlePaste None w = (w, false).
Proof.
  intros H. split; [|reflexivity]. cbn [handlePaste].
  induction H as [|i items Hn _ IH]; cbn [pasteItems]; [reflexivity|].
  rewrite Hn. exact IH.
Qed.

Lemma X13_paste_without_image_is_left_alone_witness :
  let items := [mkItem (js "text/plain") None; mkItem (js "text/html") None] in
  handlePaste (Some items) initialWorld = (initialWorld, false).
Proof.
  cbv zeta.
  apply (X13_paste_without_image_is_left_alone
           [mkItem (js "text/plain") None; mkItem (js "text/html") None] initialWorld).
  repeat constructor.
Defined.

(** X14: choosing files and pasting an image end in the same world: the
    file input takes the first file of the list as a paste takes the file
    of the first image entry.  An empty or absent list changes nothing. *)
Theorem X14_file_choice_is_paste
    (f : File) (rest : list File) (item : DataTransferItem)
    (after : list DataTransferItem) (w : world) :
  indexOf (js "image") (itemType item) <> None ->
  getAsFile item = Some f ->
  handleFileChange (Some (f :: rest)) w = fst (handlePaste (Some (item :: after)) w)
  /\ handleFileChange (Some []) w = w
  /\ handleFileChange None w = w.
Proof.
  intros Hi Hf. split; [|split; reflexivity].
  cbn [handleFileChange handlePaste pasteItems].
  destruct (indexOf (js "image") (itemType item)); [|congruence].
  now rewrite Hf.
Qed.

Lemma X14_file_choice_is_paste_witness :
  handleFileChange (Some [Sample.png; Sample.jpg]) initialWorld
  = fst (handlePaste (Some [mkItem (js "image/png") (Some Sample.png)]) initialWorld).
Proof.
  refine (proj1 (X14_file_choice_is_paste Sample.png [Sample.jpg]
                   (mkItem (js "image/png") (Some Sample.png)) [] initialWorld _ eq_refl)).
  discriminate.
Defined.

Lemma takeImage_registered (f : File) (w : world) : previewRegistered (takeImage f w).
Proof.
  unfold previewRegistered. rewrite takeImage_comp, takeImage_urls.
  cbn [imagePreview imageFile setFigmaJson setImagePreview setImageFile].
  apply in_or_app. right. now left.
Qed.

Lemma handle_registered (E : env) (ev : event) (w : world) :
  previewRegistered w -> previewRegistered (handle E ev w).
Proof.
  intros Hw. destruct ev as [files|items|v| |]; cbn [handle].
  - destruct files as [[|f rest]|]; cbn [handleFileChange]; auto.
    apply takeImage_registered.
  - destruct items as [l|]; cbn [handlePaste fst]; auto.
    destruct (pasteItems_cases l w) as [-> | [f ->]]; auto.
    apply takeImage_registered.
  - unfold previewRegistered in *. cbn [handleTextChange comp urls].
    destruct (comp w); exact Hw.
  - unfold previewRegistered. cbn [handleClearClick comp].
    destruct (comp w); exact I.
  - unfold previewRegistered in *. cbn [comp urls].
    destruct (convert_sameInputs E (comp w) (trace w)) as (_ & Hi & Hp).
    rewrite Hi, Hp. exact Hw.
Qed.

Lemma reachable_registered (E : env) (w : world) :
  reachable E w -> previewRegistered w.
Proof.
  induction 1 as [|w ev Hr IH Hen]; [exact I | now apply handle_registered].
Qed.

Lemma displayed_None_iff (s : state) :
  displayed s = None
  <-> exists j, generatedCode s = Some j /\ renderable j = false.
Proof.
  unfold displayed, render. cbn [output]. split.
  - destruct (truthy (generatedCode s)) eqn:Ht.
    + destruct (generatedCode s) as [j|]; [|discriminate].
      destruct (renderable j) eqn:Hj; [discriminate|]. intros _. now exists j.
    + cbn. discriminate.
  - intros [j [Hg Hj]]. rewrite Hg.
    destruct j; try discriminate Hj; cbn [truthy]; now rewrite Hj.
Qed.

Lemma displayed_string (s : state) (t : jsstring) :
  generatedCode s = str t -> displayed s = Some (render s).
Proof.
  intros Hg. unfold displayed, render. cbn [output]. rewrite Hg.
  destruct t; reflexivity.
Qed.

(** X15: the page is on the screen unless the result cell holds an object
    (or an array with one inside), which the text branch can store.  In
    every world the user can reach, a page that is on the screen shows one
    input and not the other: while an image file is held, the preview of
    an object URL registered for that very file and no textarea; otherwise
    the textarea with the text and no preview. *)
Theorem X15_page_shows_one_input (E : env) (w : world) :
  reachable E w ->
  (displayed (comp w) = None
   <-> exists j, generatedCode (comp w) = Some j /\ renderable j = false)
  /\ forall v,
       displayed (comp w) = Some v ->
       match imageFile (comp w) with
       | Some f =>
           exists u,
             previewSrc v = Some u
             /\ In (u, f) (urls w)
             /\ textareaValue v = None
             /\ figmaJson (comp w) = []
       | None =>
           previewSrc v = None
           /\ textareaValue v = Some (figmaJson (comp w))
       end.
Proof.
  intros Hr. split; [apply displayed_None_iff|].
  intros v Hv.
  assert (Hview : v = render (comp w)).
  { unfold displayed in Hv.
    destruct (output (render (comp w))) as [j|];
      [destruct (renderable j)|]; congruence. }
  subst v.
  pose proof (reachable_exclusive E w Hr) as Hx.
  pose proof (reachable_registered E w Hr) as Hg.
  unfold exclusive in Hx. unfold previewRegistered in Hg. unfold render.
  cbn [previewSrc textareaValue].
  destruct (imageFile (comp w)) as [f|].
  - destruct Hx as [Ht Hf]. rewrite Ht.
    destruct (imagePreview (comp w)) as [u|]; [|contradiction].
    exists u. repeat split; assumption.
  - rewrite Hx. cbn [truthyString]. split; reflexivity.
Qed.

Lemma X15_page_shows_one_input_witness :
  let E := Sample.answering Pending in
  let w := handle E (FileChange (Some [Sample.png])) (handle E (TextChange (js "{}")) initialWorld) in
  displayed (comp w) = Some (render (comp w))
  /\ exists u,
       previewSrc (render (comp w)) = Some u
       /\ In (u, Sample.png) (urls w)
       /\ textareaValue (render (comp w)) = None
       /\ figmaJson (comp w) = [].
Proof.
  cbv zeta. split; [reflexivity|].
  refine (proj2 (X15_page_shows_one_input (Sample.answering Pending)
            (handle (Sample.answering Pending) (FileChange (Some [Sample.png]))
               (handle (Sample.answering Pending) (TextChange (js "{}")) initialWorld)) _)
            _ eq_refl).
  apply reach_step; [apply reach_step; [apply reach_init | reflexivity] | reflexivity].
Defined.

(** The world after a text conversion that the service answers with an
    object as content: the page is gone. *)
Example page_unmounted_by_object_content :
  let E := Sample.answering
             (Fulfilled (mkResponse 200
                (Fulfilled (JObj [ (js "choices",
                   JArr [ JObj [ (js "message",
                     JObj [ (js "content", JObj [ (js "a", JNum 1) ]) ]) ] ]) ])))) in
  let w := handle E ConvertClick (handle E (TextChange (js "{}")) initialWorld) in
  reachable E w /\ displayed (comp w) = None.
Proof.
  cbv zeta. split; [|reflexivity].
  apply reach_step; [apply reach_step; [apply reach_init | reflexivity] | reflexivity].
Qed.

(** X16: while the request is pending the page is busy: the convert
    button is disabled and reads [Converting...], the copy button is
    disabled and the result area shows the placeholder; the page is on the
    screen. *)
Theorem X16_pending_run_shows_busy_page (E : env) (s : state) :
  fst (start E s) = Suspended ->
  convertDisabled (render (finalState E s)) = true
  /\ convertLabel (render (finalState E s)) = js "Converting..."
  /\ copyDisabled (render (finalState E s)) = true
  /\ output (render (finalState E s)) = str placeholder
  /\ displayed (finalState E s) = Some (render (finalState E s)).
Proof.
  destruct s as [fj [f|] pv gc l]; [|destruct fj];
    all_paths; intros H; try discriminate H; repeat split.
Qed.

Lemma X16_pending_run_shows_busy_page_witness :
  fst (start (Sample.answering Pending) Sample.imageState) = Suspended
  /\ convertLabel (render (finalState (Sample.answering Pending) Sample.imageState))
     = js "Converting...".
Proof.
  split; [reflexivity|].
  exact (proj1 (proj2 (X16_pending_run_shows_busy_page
                         (Sample.answering Pending) Sample.imageState eq_refl))).
Defined.

(** After the image branch and after the branch without input the result
    cell holds a string. *)
Lemma settled_result_is_string (E : env) (s : state) :
  fst (start E s) = Done tt ->
  imageFile s <> None \/ figmaJson s = [] ->
  exists t, generatedCode (finalState E s) = str t.
Proof.
  intros Hd Hm. destruct s as [fj [f|] pv gc l].
  - revert Hd. all_paths; intros Hd; try discriminate Hd; eexists; reflexivity.
  - destruct Hm as [Hm | Hm]; [now elim Hm|].
    cbn [figmaJson] in Hm. subst fj. eexists; reflexivity.
Qed.

(** X17: once a conversion of an image, or one without input, has
    settled, the convert button is enabled again and reads [Convert], the
    text, the file and the preview are untouched, and the page is on the
    screen. *)
Theorem X17_settled_run_frees_the_button (E : env) (s : state) :
  fst (start E s) = Done tt ->
  imageFile s <> None \/ figmaJson s = [] ->
  convertDisabled (render (finalState E s)) = false
  /\ convertLabel (render (finalState E s)) = js "Convert"
  /\ previewSrc (render (finalState E s)) = previewSrc (render s)
  /\ textareaValue (render (finalState E s)) = textareaValue (render s)
  /\ displayed (finalState E s) = Some (render (finalState E s)).
Proof.
  intros Hd Hm.
  assert (Hshown : displayed (finalState E s) = Some (render (finalState E s))).
  { destruct (settled_result_is_string E s Hd Hm) as [t Ht].
    exact (displayed_string _ t Ht). }
  assert (Hl : loading (finalState E s) = false).
  { destruct s as [fj [f|] pv gc l].
    - now apply image_branch_clears_loading.
    - destruct Hm as [Hm | Hm]; [now elim Hm|].
      cbn [figmaJson] in Hm. subst fj. reflexivity. }
  destruct (convert_sameInputs E s []) as (Hf & _ & Hp).
  split; [|split; [|split; [|split; [|exact Hshown]]]];
    unfold render; cbn [convertDisabled convertLabel previewSrc textareaValue];
    unfold finalState, start in *; rewrite ?Hl, ?Hf, ?Hp; reflexivity.
Qed.

Lemma X17_settled_run_frees_the_button_witness :
  let E := Sample.answering (Rejected NotAnError) in
  fst (start E Sample.imageState) = Done tt
  /\ convertLabel (render (finalState E Sample.imageState)) = js "Convert".
Proof.
  cbv zeta. split; [reflexivity|].
  refine (proj1 (proj2 (X17_settled_run_frees_the_button
                          (Sample.answering (Rejected NotAnError))
                          Sample.imageState eq_refl _))).
  left; discriminate.
Defined.

(* ================================================================== *)
(** * The first revision *)
(* ================================================================== *)

Ltac all_paths1 := mrun1; repeat (destruct_head; mrun1).

(** X18: in the first revision the promise of [convertFigmaToJSX] is never
    rejected, and every run that settles has cleared the busy flag, in the
    image branch, in the text branch and without input. *)
Theorem X18_first_revision_always_clears_busy (E : env) (s : AppV1.state) :
  (forall e, fst (AppV1.start E s) <> Raised e)
  /\ (fst (AppV1.start E s) = Done tt ->
      AppV1.loading (ui (snd (AppV1.start E s))) = false).
Proof.
  split.
  - intros e. destruct s as [fj [f|] gc l]; [|destruct fj];
      all_paths1; discriminate.
  - destruct s as [fj [f|] gc l]; [|destruct fj];
      all_paths1; intros H; (reflexivity || discriminate H).
Qed.

Lemma X18_first_revision_always_clears_busy_witness :
  let E := Sample.answering
             (Fulfilled (mkResponse 200 (Fulfilled (Sample.completion (js "<div/>"))))) in
  let s := AppV1.mkState (js "{}") None (AppV1.str []) false in
  fst (AppV1.start E s) = Done tt
  /\ AppV1.loading (ui (snd (AppV1.start E s))) = false.
Proof.
  cbv zeta. split; [reflexivity|].
  exact (proj2 (X18_first_revision_always_clears_busy
                  (Sample.answering
                     (Fulfilled (mkResponse 200 (Fulfilled (Sample.completion (js "<div/>"))))))
                  (AppV1.mkState (js "{}") None (AppV1.str []) false)) eq_refl).
Defined.

(** X19: in the first revision the file input sets the file and leaves the
    text, so both can be set; the conversion then takes the image and does
    not look at the text. *)
Theorem X19_first_revision_prefers_image (E : env) (f : File) (rest : list File)
    (fj fj' : jsstring) (gc : value) (l : bool) :
  AppV1.handleFileChange (Some (f :: rest)) (AppV1.mkState fj None gc l)
    = AppV1.mkState fj (Some f) gc l
  /\ fst (AppV1.start E (AppV1.mkState fj (Some f) gc l))
     = fst (AppV1.start E (AppV1.mkState fj' (Some f) gc l))
  /\ effects (snd (AppV1.start E (AppV1.mkState fj (Some f) gc l)))
     = effects (snd (AppV1.start E (AppV1.mkState fj' (Some f) gc l)))
  /\ AppV1.generatedCode (ui (snd (AppV1.start E (AppV1.mkState fj (Some f) gc l))))
     = AppV1.generatedCode (ui (snd (AppV1.start E (AppV1.mkState fj' (Some f) gc l)))).
Proof.
  split; [reflexivity|]. all_paths1; repeat split.
Qed.

(** X20: in the first revision a [load] event with a falsy result settles
    nothing: the conversion waits for ever, busy, and sends no request. *)
Theorem X20_first_revision_waits_on_empty_read (E : env) (f : File)
    (fj : jsstring) (gc : value) (l : bool) :
  readAsDataURL E f = onload RNull \/ readAsDataURL E f = onload (RString []) ->
  let s := AppV1.mkState fj (Some f) gc l in
  fst (AppV1.start E s) = Suspended
  /\ effects (snd (AppV1.start E s)) = [EReadAsDataURL f]
  /\ AppV1.loading (ui (snd (AppV1.start E s))) = true.
Proof.
  intros [Hr | Hr] s; subst s; mrun1; rewrite Hr; mrun1; repeat split.
Qed.

Lemma X20_first_revision_waits_on_empty_read_witness :
  let E := mkEnv (Some (js "sk-test")) (fun _ => onload RNull)
                 (fun _ _ => Pending) Sample.v8TypeError Sample.printNumber in
  fst (AppV1.start E (AppV1.mkState [] (Some Sample.png) (AppV1.str []) false))
  = Suspended.
Proof.
  cbv zeta.
  refine (proj1 (X20_first_revision_waits_on_empty_read
                   (mkEnv (Some (js "sk-test")) (fun _ => onload RNull)
                      (fun _ _ => Pending) Sample.v8TypeError Sample.printNumber)
                   Sample.png [] (AppV1.str []) false _)).
  left; reflexivity.
Defined.

Lemma trimStart_app_wsrun (a b : jsstring) :
  Forall (fun c => isWhiteSpace c = true) a -> trimStart (a ++ b) = trimStart b.
Proof.
  induction 1 as [|c a Hc _ IH]; [reflexivity|].
  cbn [app trimStart]. now rewrite Hc.
Qed.

Lemma trimEnd_app_wsrun (x suf : jsstring) :
  Forall (fun c => isWhiteSpace c = true) suf -> trimEnd (x ++ suf) = trimEnd x.
Proof.
  intros H. unfold trimEnd. rewrite rev_app_distr.
  now rewrite (trimStart_app_wsrun _ _ (Forall_rev H)).
Qed.

Lemma trimEnd_snoc_nonws (y : jsstring) (c : N) :
  isWhiteSpace c = false -> trimEnd (y ++ [c]) = y ++ [c].
Proof.
  intros Hc. unfold trimEnd. rewrite rev_unit. cbn [trimStart]. rewrite Hc.
  cbn [rev]. now rewrite rev_involutive.
Qed.

Lemma trimStart_fixed (h r : jsstring) :
  trimStart h = h -> h <> [] -> trimStart (h ++ r) = h ++ r.
Proof.
  destruct h as [|c h]; [congruence|]. intros Hh _.
  pose proof (trimStart_head _ _ _ Hh) as Hc.
  cbn [app trimStart]. now rewrite Hc.
Qed.

Lemma figmaPrompt_shape (figma : jsstring) :
  AppV1.figmaPrompt figma
  = trimEnd ((figmaHeader ++ figma) ++ [10]%N ++ js "      ").
Proof.
  unfold AppV1.figmaPrompt. cbn [app].
  rewrite (trim_cons_ws 10%N _ eq_refl).
  unfold trim. apply (f_equal trimEnd).
  rewrite trimStart_fixed by (reflexivity || discriminate).
  unfold figmaHeader. rewrite <- !app_assoc. reflexivity.
Qed.

(** X22: the prompt of the first revision for a text is trimmed as a
    whole.  A text that ends in something other than white space stands
    in it as it was typed, behind the fixed instruction; white space at
    the end of the text is not sent. *)
Theorem X22_first_revision_prompt_holds_text (text : jsstring) (c : N) :
  (isWhiteSpace c = false ->
   AppV1.figmaPrompt (text ++ [c]) = figmaHeader ++ text ++ [c])
  /\ (isWhiteSpace c = true ->
      AppV1.figmaPrompt (text ++ [c]) = AppV1.figmaPrompt text).
Proof.
  assert (Hs : Forall (fun c => isWhiteSpace c = true) ([10]%N ++ js "      "))
    by (repeat constructor).
  split; intros Hc; rewrite !figmaPrompt_shape.
  - rewrite (trimEnd_app_wsrun _ _ Hs), app_assoc.
    apply trimEnd_snoc_nonws, Hc.
  - rewrite !(trimEnd_app_wsrun _ _ Hs), app_assoc.
    apply trimEnd_app_ws, Hc.
Qed.

Lemma X22_first_revision_prompt_holds_text_witness :
  AppV1.figmaPrompt (js "{}") = figmaHeader ++ js "{}"
  /\ AppV1.figmaPrompt (js "{} ") = AppV1.figmaPrompt (js "{}").
Proof.
  split.
  - exact (proj1 (X22_first_revision_prompt_holds_text (js "{") 125%N) eq_refl).
  - exact (proj2 (X22_first_revision_prompt_holds_text (js "{}") 32%N) eq_refl).
Defined.

Lemma imagePrompt_shape (base64Image : jsstring) :
  AppV1.imagePrompt base64Image
  = trimEnd ((imageHeader ++ base64Image) ++ [10]%N ++ js "        ").
Proof.
  unfold AppV1.imagePrompt. cbn [app].
  rewrite (trim_cons_ws 10%N _ eq_refl).
  unfold trim. apply (f_equal trimEnd).
  rewrite trimStart_fixed by (reflexivity || discriminate).
  unfold imageHeader. rewrite <- !app_assoc. reflexivity.
Qed.

Lemma imagePrompt_verbatim (text : jsstring) (c : N) :
  isWhiteSpace c = false ->
  AppV1.imagePrompt (text ++ [c]) = imageHeader ++ text ++ [c].
Proof.
  intros Hc. rewrite imagePrompt_shape.
  assert (Hs : Forall (fun c => isWhiteSpace c = true) ([10]%N ++ js "        "))
    by (repeat constructor).
  rewrite (trimEnd_app_wsrun _ _ Hs), app_assoc.
  apply trimEnd_snoc_nonws, Hc.
Qed.

(** X21: the first revision sends at most one request, always with model
    [gpt-4], temperature 0, at most 1500 tokens and one user message whose
    content is a plain string, never an image part.  An image travels as
    text: when the read gives a string that does not end in white space,
    as a data URL does not, the one request is sent and its prompt is the
    fixed instruction followed by that string as it is. *)
Theorem X21_first_revision_request (E : env) (s : AppV1.state) :
  length (requests (effects (snd (AppV1.start E s)))) <= 1
  /\ (forall u init,
       In (u, init) (requests (effects (snd (AppV1.start E s)))) ->
       u = endpoint
       /\ model (body init) = js "gpt-4"
       /\ temperature (body init) = 0%Q
       /\ max_tokens (body init) = 1500%N
       /\ imageRefs (body init) = []
       /\ exists prompt,
            messages (body init) = [mkMessage (js "user") (ContentString prompt)])
  /\ (forall f text c,
       AppV1.imageFile s = Some f ->
       readAsDataURL E f = onload (RString (text ++ [c])) ->
       isWhiteSpace c = false ->
       exists init,
         requests (effects (snd (AppV1.start E s))) = [(endpoint, init)]
         /\ messages (body init)
            = [mkMessage (js "user") (ContentString (imageHeader ++ text ++ [c]))]).
Proof.
  split; [|split].
  - destruct s as [fj [f|] gc l]; [|destruct fj];
      all_paths1; cbn [requests flat_map app length]; lia.
  - intros u init. destruct s as [fj [f|] gc l]; [|destruct fj];
      all_paths1; cbn [requests flat_map app In];
      intros H; repeat (destruct H as [H|H]); try contradiction;
      injection H as <- <-; repeat split; eexists; reflexivity.
  - intros f text c Hi Hr Hc.
    destruct s as [fj im gc l]; cbn [AppV1.imageFile] in Hi; subst im.
    exists (AppV1.promptRequest E (AppV1.imagePrompt (text ++ [c]))).
    split.
    + remember (text ++ [c]) as r eqn:Heq.
      destruct r as [|x r]; [now destruct text|].
      mrun1. rewrite Hr. all_paths1; reflexivity.
    + cbn [AppV1.promptRequest body messages].
      now rewrite (imagePrompt_verbatim text c Hc).
Qed.

Lemma X21_first_revision_request_witness :
  let E := Sample.answering Pending in
  let s := AppV1.mkState (js "{}") (Some Sample.png) (AppV1.str []) false in
  readAsDataURL E Sample.png = onload (RString (js "data:image/png;base64,iVBO"))
  /\ exists init,
       requests (effects (snd (AppV1.start E s))) = [(endpoint, init)]
       /\ messages (body init)
          = [mkMessage (js "user")
               (ContentString (imageHeader ++ js "data:image/png;base64,iVBO"))].
Proof.
  cbv zeta. split; [reflexivity|].
  exact (proj2 (proj2 (X21_first_revision_request (Sample.answering Pending)
                  (AppV1.mkState (js "{}") (Some Sample.png) (AppV1.str []) false)))
           Sample.png (js "data:image/png;base64,iVB") 79%N
           eq_refl eq_refl eq_refl).
Defined.
